(** * analyze_json.py: pairing of NetFlow v9 flow records into connections

    A shallow embedding of [analyze_json.py]: the address classification
    [getIPs], the [Connection] model with its derived attributes, and the
    reporting loop over the export batches of a JSON dump. *)

From Stdlib Require Import ZArith String Ascii List Bool Lia.
From Stdlib Require Import Floats.SpecFloat.
From stdpp Require Import base option list gmap strings pretty sorting.

Local Open Scope string_scope.
Local Open Scope Z_scope.

(** ** Values of the dump and the exceptions of the script *)

(** What [json.loads] puts inside a flow record: [None], booleans, integers
    and strings. (JSON floats and nested containers do not occur in the
    records the collector writes and are not part of this model.) *)
Inductive value : Type :=
  | VNone
  | VBool (b : bool)
  | VInt (n : Z)
  | VStr (s : string).

(** A flow record is a Python [dict] with string keys. *)
Abbreviation Flow := (gmap string value).

(** The exceptions that can leave the code of the script. *)
Inductive exn : Type :=
  | KeyError (key : string)
  | TypeError
  | ValueError
  | OverflowError
  | ZeroDivisionError
  | OSError.

(** A computation either returns or raises. *)
Inductive result (A : Type) : Type :=
  | Ok (a : A)
  | Raise (e : exn).
Arguments Ok {A} a.
Arguments Raise {A} e.

#[global] Instance result_ret : MRet result := fun _ a => Ok a.

#[global] Instance result_bind : MBind result := fun _ _ k m =>
  match m with
  | Ok a => k a
  | Raise e => Raise e
  end.

#[global] Instance value_eq_dec : EqDecision value.
Proof. solve_decision. Defined.

#[global] Instance exn_eq_dec : EqDecision exn.
Proof. solve_decision. Defined.

(** [d[key]]: subscripting a dict raises [KeyError] on a missing key. *)
Definition getitem (d : Flow) (key : string) : result value :=
  match d !! key with
  | Some v => Ok v
  | None => Raise (KeyError key)
  end.

(** [key in d] *)
Definition contains (d : Flow) (key : string) : bool :=
  bool_decide (is_Some (d !! key)).

(** Python's numeric tower restricted to the model: [bool] is a subclass of
    [int] with [True == 1] and [False == 0]. *)
Definition as_int (v : value) : option Z :=
  match v with
  | VInt n => Some n
  | VBool true => Some 1
  | VBool false => Some 0
  | _ => None
  end.

(** [v == n] for an integer literal [n]: never raises. *)
Definition py_eq_int (v : value) (n : Z) : bool :=
  match as_int v with
  | Some m => m =? n
  | None => false
  end.

(** [a >= b]: numbers compare by value, strings lexicographically by code
    point, anything else raises [TypeError]. *)
Definition py_ge (a b : value) : result bool :=
  match as_int a, as_int b with
  | Some x, Some y => Ok (x >=? y)
  | _, _ =>
      match a, b with
      | VStr s, VStr t => Ok (String.leb t s)
      | _, _ => Raise TypeError
      end
  end.

(** [a > b] *)
Definition py_gt (a b : value) : result bool :=
  match as_int a, as_int b with
  | Some x, Some y => Ok (x >? y)
  | _, _ =>
      match a, b with
      | VStr s, VStr t => Ok (String.ltb t s)
      | _, _ => Raise TypeError
      end
  end.

(** [a < b] *)
Definition py_lt (a b : value) : result bool :=
  match as_int a, as_int b with
  | Some x, Some y => Ok (x <? y)
  | _, _ =>
      match a, b with
      | VStr s, VStr t => Ok (String.ltb s t)
      | _, _ => Raise TypeError
      end
  end.

(** [a - b]: defined on numbers only. *)
Definition py_sub (a b : value) : result Z :=
  match as_int a, as_int b with
  | Some x, Some y => Ok (x - y)
  | _, _ => Raise TypeError
  end.

(** [a + b] where [a] is already known to be an integer. *)
Definition py_add_int (a : Z) (b : value) : result Z :=
  match as_int b with
  | Some y => Ok (a + y)
  | None => Raise TypeError
  end.

(** The number a value stands for in arithmetic and under [%d]; a [str] or
    [None] in that place is a [TypeError]. *)
Definition number (v : value) : result Z :=
  match as_int v with
  | Some n => Ok n
  | None => Raise TypeError
  end.

(** ** Python floats and [%]-formatting *)

(** A Python [float] is an IEEE 754 binary64 number. *)
Definition prec : Z := 53.
Definition emax : Z := 1024.

(** A float literal with an integral value that binary64 holds exactly
    ([1024.], [1024.**2], ...), and the float an [int] operand of a
    comparison with a float is equal to when it is that small. *)
Definition float_lit (n : Z) : spec_float := binary_normalize prec emax n 0 false.

(** [float(n)] for an [int], as mixed arithmetic does it: rounded to nearest,
    ties to even; an [int] beyond the range of a float raises. *)
Definition float_of_int (n : Z) : result spec_float :=
  match binary_normalize prec emax n 0 false with
  | S754_infinity _ => Raise OverflowError
  | x => Ok x
  end.

(** [n / y] for an [int] [n] and a non-zero float [y]. *)
Definition int_div_float (n : Z) (y : spec_float) : result spec_float :=
  x ← float_of_int n;
  Ok (SFdiv prec emax x y).

(** [v / y] for a value [v] of the dump. *)
Definition py_div_float (v : value) (y : spec_float) : result spec_float :=
  n ← number v;
  int_div_float n y.

(** An integer as an unrounded operand of the division below. *)
Definition exact_int (n : Z) : spec_float :=
  match n with
  | Z0 => S754_zero false
  | Zpos p => S754_finite false p 0
  | Zneg p => S754_finite true p 0
  end.

(** [a / b] for two [int]s: the quotient of the integers themselves, rounded
    once to the nearest float. *)
Definition int_truediv (a b : Z) : result spec_float :=
  if b =? 0 then Raise ZeroDivisionError
  else match SFdiv prec emax (exact_int a) (exact_int b) with
       | S754_infinity _ => Raise OverflowError
       | x => Ok x
       end.

(** [int(x)], which is what [%d] applies to a float: truncation towards
    zero. *)
Definition int_of_float (x : spec_float) : result Z :=
  match x with
  | S754_zero _ => Ok 0
  | S754_finite s m e => Ok (cond_Zopp s (Z.shiftl (Zpos m) e))
  | S754_infinity _ => Raise OverflowError
  | S754_nan => Raise ValueError
  end.

(** ["%d" % n] *)
Definition fmt_d (n : Z) : string := pretty n.

(** ["%d" % v] for a value [v] of the dump. *)
Definition py_fmt_d (v : value) : result string :=
  n ← number v;
  Ok (fmt_d n).

(** ["%02d" % n]: zero padding to width two, sign included. *)
Definition fmt_02d (n : Z) : string :=
  match n with
  | Zneg _ => pretty n
  | _ => if n <? 10 then "0" +:+ pretty n else pretty n
  end.

(** [num / den] rounded to the nearest integer, ties to even
    ([0 <= num], [0 < den]). *)
Definition round_half_even (num den : Z) : Z :=
  let q := num / den in
  match 2 * (num mod den) ?= den with
  | Lt => q
  | Gt => q + 1
  | Eq => if Z.even q then q else q + 1
  end.

(** ["%.2f" % x]: the exact value of the float, correctly rounded to two
    decimals. *)
Definition fmt_2f (x : spec_float) : string :=
  match x with
  | S754_zero s => (if s then "-" else "") +:+ "0.00"
  | S754_infinity s => if s then "-inf" else "inf"
  | S754_nan => "nan"
  | S754_finite s m e =>
      let hundredths :=
        if 0 <=? e then Zpos m * 2 ^ e * 100
        else round_half_even (Zpos m * 100) (2 ^ (- e)) in
      (if s then "-" else "")
        +:+ pretty (hundredths / 100) +:+ "." +:+ fmt_02d (hundredths mod 100)
  end.

(** ["%d" % x] and ["%02d" % x] on a float. *)
Definition fmt_d_float (x : spec_float) : result string :=
  n ← int_of_float x; Ok (fmt_d n).
Definition fmt_02d_float (x : spec_float) : result string :=
  n ← int_of_float x; Ok (fmt_02d n).

(** [s.upper()] on the ASCII letters. *)
Definition upper_ascii (c : ascii) : ascii :=
  let n := nat_of_ascii c in
  if ((97 <=? n) && (n <=? 122))%nat then ascii_of_nat (n - 32) else c.

Fixpoint upper (s : string) : string :=
  match s with
  | EmptyString => EmptyString
  | String c s' => String (upper_ascii c) (upper s')
  end.

(** [{s:w}] in [str.format]: a string is padded on the right to width [w]. *)
Definition pad (s : string) (w : nat) : string :=
  s +:+ String.concat "" (repeat " " (w - String.length s)).

(** ** The [ipaddress] module *)

(** An [IPv4Address] or [IPv6Address] object holds the address as an
    integer. *)
Inductive ip : Type :=
  | IPv4Address (n : Z)
  | IPv6Address (n : Z).

#[global] Instance ip_eq_dec : EqDecision ip.
Proof. solve_decision. Defined.

Definition Pair (A : Type) : Type := (A * A)%type.
Definition src_of {A} (p : Pair A) : A := fst p.
Definition dest_of {A} (p : Pair A) : A := snd p.

(** [str] of an [IPv4Address]: the four bytes in decimal, joined by dots. *)
Definition IPv4_string (n : Z) : string :=
  String.concat "."
    (map (fun i => pretty (n / 2 ^ (8 * (3 - i)) mod 256)) [0; 1; 2; 3]).

(** ['%x' % h] for a hextet [0 <= h < 65536]. *)
Definition hex_digit (d : Z) : ascii :=
  ascii_of_nat (Z.to_nat (if d <? 10 then 48 + d else 87 + d)).

Fixpoint strip_zeros (digits : list Z) : list Z :=
  match digits with
  | 0 :: (_ :: _) as rest => strip_zeros rest
  | _ => digits
  end.

Definition hextet (h : Z) : string :=
  string_of_list_ascii
    (map hex_digit (strip_zeros [h / 4096; h / 256 mod 16; h / 16 mod 16; h mod 16])).

(** The loop of [_compress_hextets]: the state is [(best_doublecolon_start,
    best_doublecolon_len, doublecolon_start, doublecolon_len)]. *)
Definition doublecolon_step (st : Z * Z * Z * Z) (item : Z * string)
    : Z * Z * Z * Z :=
  let '(best_start, best_len, start, len) := st in
  let '(index, hextet) := item in
  if String.eqb hextet "0" then
    let len := len + 1 in
    let start := if start =? -1 then index else start in
    if len >? best_len then (start, len, start, len)
    else (best_start, best_len, start, len)
  else (best_start, best_len, -1, 0).

(** [_compress_hextets]: the longest run of zero hextets, the first one of
    that length and only if longer than one, becomes an empty string, with
    one more empty string at either end of the address it touches. *)
Definition compress_hextets (hextets : list string) : list string :=
  let indexed := combine (map Z.of_nat (seq 0 (length hextets))) hextets in
  let '(best_start, best_len, _, _) :=
    fold_left doublecolon_step indexed (-1, 0, -1, 0) in
  if best_len >? 1 then
    let best_end := best_start + best_len in
    let hextets :=
      if best_end =? Z.of_nat (length hextets) then (hextets ++ [""])%list
      else hextets in
    let hextets :=
      (take (Z.to_nat best_start) hextets ++ [""]
         ++ drop (Z.to_nat best_end) hextets)%list in
    if best_start =? 0 then "" :: hextets else hextets
  else hextets.

(** [str] of an [IPv6Address] (without scope). *)
Definition IPv6_string (n : Z) : string :=
  String.concat ":"
    (compress_hextets
       (map (fun i => hextet (n / 2 ^ (16 * (7 - i)) mod 65536))
            [0; 1; 2; 3; 4; 5; 6; 7])).

(** [addr.compressed], which is [str(addr)]. *)
Definition compressed (addr : ip) : string :=
  match addr with
  | IPv4Address n => IPv4_string n
  | IPv6Address n => IPv6_string n
  end.

(** What the script takes from the operating system and from the text side
    of [ipaddress]: the parser of textual addresses, the resolver calls and
    the local-time rendering of an export key. *)
Record host : Type := {
  (** [IPv4Address(s)] then [IPv6Address(s)] on a string; [None] when both
      reject it. *)
  ip_of_text : string -> option ip;
  (** [socket.getfqdn(name)]: returns its argument when nothing resolves. *)
  getfqdn : string -> string;
  (** [socket.getservbyport(port)]: [OSError] when the port has no service
      name; other exceptions for arguments that are no port. *)
  getservbyport : value -> result string;
  (** [datetime.fromtimestamp(float(export)).strftime(...)]. *)
  timestamp_of : string -> result string
}.

Section Script.

Context (sys : host).

(** [ipaddress.ip_address(address)]. An integer below [2**32] is an IPv4
    address, a larger one below [2**128] an IPv6 address, and an integer
    outside that range is rejected with [ValueError]; [str(None)] is no
    address in either family. *)
Definition ip_address (address : value) : result ip :=
  match address with
  | VStr s =>
      match ip_of_text sys s with
      | Some a => Ok a
      | None => Raise ValueError
      end
  | VNone => Raise ValueError
  | _ =>
      match as_int address with
      | Some n =>
          if (0 <=? n) && (n <=? 2 ^ 32 - 1) then Ok (IPv4Address n)
          else if (0 <=? n) && (n <=? 2 ^ 128 - 1) then Ok (IPv6Address n)
          else Raise ValueError
      | None => Raise ValueError
      end
  end.

(** Lines 22-27 of [getIPs]: the choice of the address family. *)
Definition use_ipv4 (flow : Flow) : bool :=
  if contains flow "IP_PROTOCOL_VERSION"
     && match flow !! "IP_PROTOCOL_VERSION" with
        | Some v => py_eq_int v 4
        | None => false
        end
  then true
  else if contains flow "IPV4_SRC_ADDR" || contains flow "IPV4_DST_ADDR"
  then true
  else false.

(** [Pair(ip_address(flow[ksrc]), ip_address(flow[kdst]))]: the arguments are
    evaluated left to right. *)
Definition address_pair (flow : Flow) (ksrc kdst : string) : result (Pair ip) :=
  a ← getitem flow ksrc;
  s ← ip_address a;
  b ← getitem flow kdst;
  d ← ip_address b;
  Ok (s, d).

Definition getIPs (flow : Flow) : result (Pair ip) :=
  if use_ipv4 flow
  then address_pair flow "IPV4_SRC_ADDR" "IPV4_DST_ADDR"
  else address_pair flow "IPV6_SRC_ADDR" "IPV6_DST_ADDR".

(** ** The [Connection] class *)

Record Connection : Type := {
  src : ip;
  dest : ip;
  src_port : value;
  dest_port : value;
  size : value;
  duration : Z
}.

(** Lines 48-53 of [Connection.__init__]: the flow with the larger
    [IN_BYTES] is labelled [src], the first one on a tie. *)
Definition direction (flow1 flow2 : Flow) : result (Flow * Flow) :=
  b1 ← getitem flow1 "IN_BYTES";
  b2 ← getitem flow2 "IN_BYTES";
  larger ← py_ge b1 b2;
  if (larger : bool) then Ok (flow1, flow2) else Ok (flow2, flow1).

(** Lines 55-66 of [Connection.__init__], everything read from [src]. *)
Definition Connection_of (src : Flow) : result Connection :=
  ips ← getIPs src;
  sport ← getitem src "L4_SRC_PORT";
  dport ← getitem src "L4_DST_PORT";
  sz ← getitem src "IN_BYTES";
  (* Duration is given in milliseconds *)
  last ← getitem src "LAST_SWITCHED";
  first ← getitem src "FIRST_SWITCHED";
  d ← py_sub last first;
  d ← (if (d : Z) <? 0 then
         (* 32 bit int has its limits. Handling overflow here *)
         first ← getitem src "FIRST_SWITCHED";
         x ← py_sub (VInt (2 ^ 32)) first;
         last ← getitem src "LAST_SWITCHED";
         py_add_int x last
       else Ok d);
  Ok {| src := src_of ips; dest := dest_of ips;
        src_port := sport; dest_port := dport;
        size := sz; duration := d |}.

Definition Connection_init (flow1 flow2 : Flow) : result Connection :=
  sd ← direction flow1 flow2;
  Connection_of (fst sd).

(** [Connection.human_size] *)
Definition human_size (c : Connection) : result string :=
  (* Calculate a human readable size of the traffic *)
  small ← py_lt (size c) (VInt 1024);
  if (small : bool) then
    b ← py_fmt_d (size c);
    Ok (b +:+ "B")
  else
    k ← py_div_float (size c) (float_lit 1024);
    if SFltb k (float_lit 1024) then Ok (fmt_2f k +:+ "K")
    else
      m ← py_div_float (size c) (float_lit (1024 ^ 2));
      if SFltb m (float_lit 1024) then Ok (fmt_2f m +:+ "M")
      else
        g ← py_div_float (size c) (float_lit (1024 ^ 3));
        Ok (fmt_2f g +:+ "G").

(** [Connection.human_duration] *)
Definition human_duration (c : Connection) : result string :=
  let duration := duration c / 1000 in  (* uptime in milliseconds, floor it *)
  if duration <? 60 then
    (* seconds *)
    Ok (fmt_d duration +:+ " sec")
  else
    minutes ← int_truediv duration 60;
    if SFltb (float_lit 60) minutes then
      (* hours *)
      h ← int_truediv duration (60 ^ 2);
      m ← int_truediv (duration mod 60 ^ 2) 60;
      h ← fmt_d_float h;
      m ← fmt_02d_float m;
      Ok (h +:+ ":" +:+ m +:+ "." +:+ fmt_02d (duration mod 60) +:+ " hours")
    else
      (* minutes *)
      m ← int_truediv duration 60;
      m ← fmt_02d_float m;
      Ok (m +:+ ":" +:+ fmt_02d (duration mod 60) +:+ " min").

(** [Connection.hostnames] *)
Definition hostnames (c : Connection) : Pair string :=
  (* Resolve the IPs of this flows to their hostname *)
  let src_hostname := getfqdn sys (compressed (src c)) in
  let dest_hostname := getfqdn sys (compressed (dest c)) in
  (src_hostname, dest_hostname).

(** [try: body except OSError: handler] *)
Definition except_OSError {A} (body handler : result A) : result A :=
  match body with
  | Raise OSError => handler
  | r => r
  end.

(** [Connection.service] *)
Definition service (c : Connection) : result string :=
  (* Resolve ports to their services, if known *)
  let service := "unknown" in
  except_OSError
    (* Try service of sending peer first *)
    (getservbyport sys (src_port c))
    (* Resolving the sport did not work, trying dport *)
    (except_OSError (getservbyport sys (dest_port c)) (Ok service)).

(** [Connection.__repr__] *)
Definition Connection_repr (c : Connection) : result string :=
  size ← human_size c;
  Ok ("<Connection from " +:+ compressed (src c) +:+ " to "
        +:+ compressed (dest c) +:+ ", size " +:+ size +:+ ">").

(** Lines 143-148: the line given to [print]. The keyword arguments of
    [format] are evaluated in the order they are written. *)
Definition summary (timestamp : string) (con : Connection) : result string :=
  service ← service con;
  let service := upper service in
  let src_host := src_of (hostnames con) in
  let src := compressed (src con) in
  let dest_host := dest_of (hostnames con) in
  let dest := compressed (dest con) in
  size ← human_size con;
  duration ← human_duration con;
  Ok (timestamp +:+ ": " +:+ pad service 7 +:+ " | " +:+ pad size 8
        +:+ " | " +:+ pad duration 9 +:+ " | " +:+ src_host
        +:+ " (" +:+ src +:+ ") to " +:+ dest_host +:+ " (" +:+ dest +:+ ")").

(** Lines 140-148: what happens to the two flows of a pair; [out] is what
    has been printed so far. *)
Definition report (timestamp : string) (pending flow : Flow)
    (out : list string) : result (list string) :=
  con ← Connection_init pending flow;
  large ← py_gt (size con) (VInt (1024 ^ 2));
  if (large : bool) then
    line ← summary timestamp con;
    Ok (out ++ [line])%list
  else Ok out.

End Script.

(** ** The loops of the script *)

(** A [for] loop whose body may raise: the exception ends the loop and
    leaves the state as the failing iteration found it. *)
Fixpoint for_each {S X : Type} (body : X -> S -> S * option exn)
    (xs : list X) (st : S) : S * option exn :=
  match xs with
  | [] => (st, None)
  | x :: xs' =>
      match body x st with
      | (st', None) => for_each body xs' st'
      | (st', Some e) => (st', Some e)
      end
  end.

(** [not pending] is the truth test of Python: [None] is false, and so is
    a dict without entries. *)
Definition truthy (pending : option Flow) : bool :=
  match pending with
  | None => false
  | Some d => negb (bool_decide (d = ∅))
  end.

Section Pairing.

Context {A : Type}.
(** What lines 140-148 do with a pair, on whatever they act on. *)
Context (paired : Flow -> Flow -> A -> result A).

(** Lines 137-149: the body of [for flow in flows]. *)
Definition flow_body (flow : Flow) (st : option Flow * A)
    : (option Flow * A) * option exn :=
  let '(pending, a) := st in
  if negb (truthy pending) then
    ((Some flow, a), None)
  else
    match pending with
    | Some p =>
        match paired p flow a with
        | Ok a' => ((None, a'), None)
        | Raise e => (st, Some e)
        end
    | None => (st, Some TypeError)
    end.

(** The aggregator as the specification words it: a slot that is either
    empty or holds one flow. *)
Definition slot_step (flow : Flow) (st : option Flow * A)
    : (option Flow * A) * option exn :=
  match fst st with
  | None => ((Some flow, snd st), None)
  | Some p =>
      match paired p flow (snd st) with
      | Ok a' => ((None, a'), None)
      | Raise e => (st, Some e)
      end
  end.

End Pairing.

(** The records of a batch two at a time, in arrival order, and the record
    left over when their number is odd. *)
Fixpoint two_at_a_time (flows : list Flow) : list (Flow * Flow) * option Flow :=
  match flows with
  | [] => ([], None)
  | [f] => ([], Some f)
  | f :: g :: rest =>
      let '(pairs, last) := two_at_a_time rest in ((f, g) :: pairs, last)
  end.

(** A handler that only records which pairs it was given. *)
Definition record_pair (p f : Flow) (seen : list (Flow * Flow))
    : result (list (Flow * Flow)) :=
  Ok (seen ++ [(p, f)])%list.

(** The dump: export timestamp to the flows of that export, a JSON object
    of arrays of objects. *)
Abbreviation dump := (gmap string (list Flow)).

(** [sorted(data)]: the keys in the order of [str]. *)
Definition sorted (data : dump) : list string :=
  merge_sort (fun s t => Is_true (String.leb s t)) (elements (dom data)).

Section Main.

Context (sys : host).

(** Lines 132-149: the body of [for export in sorted(data)]. The state is
    the module variable [pending] and what has been printed. *)
Definition export_body (data : dump) (export : string)
    (st : option Flow * list string) : (option Flow * list string) * option exn :=
  match timestamp_of sys export with
  | Raise e => (st, Some e)
  | Ok timestamp =>
      let flows := default [] (data !! export) in  (* [export] is a key *)
      let pending := None in  (* Two flows normally appear together for duplex connection *)
      for_each (flow_body (report sys timestamp)) flows (pending, snd st)
  end.

(** Lines 131-149. *)
Definition main (data : dump) : (option Flow * list string) * option exn :=
  for_each (export_body data) (sorted data) (None, []).

End Main.

(** ** Concrete records used as instances *)

(** A machine without reverse DNS and without a service database. The
    records below carry their addresses as integers, so the parser of
    textual addresses is never asked. *)
Definition offline : host := {|
  ip_of_text := fun _ => None;
  getfqdn := fun name => name;
  getservbyport := fun _ => Raise OSError;
  timestamp_of := fun export => Ok export
|}.

(** A flow of [n] bytes between two IPv4 hosts, switched from [first] to
    [last]. *)
Definition sample_flow (n first last : Z) : Flow :=
  {[ "IN_BYTES" := VInt n;
     "IPV4_SRC_ADDR" := VInt 167772161; "IPV4_DST_ADDR" := VInt 167772162;
     "L4_SRC_PORT" := VInt 443; "L4_DST_PORT" := VInt 50000;
     "FIRST_SWITCHED" := VInt first; "LAST_SWITCHED" := VInt last ]}.

(** The two directions of one conversation: a small upload and the larger
    download that answers it. *)
Definition upload : Flow :=
  {[ "IN_BYTES" := VInt 500;
     "IPV4_SRC_ADDR" := VInt 167772161; "IPV4_DST_ADDR" := VInt 167772162;
     "L4_SRC_PORT" := VInt 50000; "L4_DST_PORT" := VInt 443;
     "FIRST_SWITCHED" := VInt 1000; "LAST_SWITCHED" := VInt 4000 ]}.

Definition download : Flow :=
  {[ "IN_BYTES" := VInt 1500;
     "IPV4_SRC_ADDR" := VInt 167772162; "IPV4_DST_ADDR" := VInt 167772161;
     "L4_SRC_PORT" := VInt 443; "L4_DST_PORT" := VInt 50000;
     "FIRST_SWITCHED" := VInt 1000; "LAST_SWITCHED" := VInt 4000 ]}.

(** A flow whose millisecond counter wrapped between its first and its
    last packet. *)
Definition wrapped : Flow := sample_flow 1500 4294967290 5.

(** A flow of one byte more than a mebibyte, and its [Connection]. *)
Definition bulk : Flow := sample_flow (1024 ^ 2 + 1) 1000 4000.

Definition bulk_connection : Connection :=
  {| src := IPv4Address 167772161; dest := IPv4Address 167772162;
     src_port := VInt 443; dest_port := VInt 50000;
     size := VInt (1024 ^ 2 + 1); duration := 3000 |}.

(** The [Connection] of [wrapped]. *)
Definition wrapped_connection : Connection :=
  {| src := IPv4Address 167772161; dest := IPv4Address 167772162;
     src_port := VInt 443; dest_port := VInt 50000;
     size := VInt 1500; duration := 11 |}.

(** The two flows of the end-to-end scenario: 2048 bytes switched from 1000
    to 4000, and 100 bytes the other way. *)
Definition kib : Flow := sample_flow 2048 1000 4000.

Definition tiny : Flow := sample_flow 100 1000 4000.

Definition kib_connection : Connection :=
  {| src := IPv4Address 167772161; dest := IPv4Address 167772162;
     src_port := VInt 443; dest_port := VInt 50000;
     size := VInt 2048; duration := 3000 |}.

(** Two exports, the first with an odd number of records. *)
Definition two_exports : dump :=
  {[ "1500000000" := [bulk; upload; download];
     "1500000300" := [upload; bulk] ]}.

(** A record with an IPv4 source address and no version field. *)
Definition unversioned : Flow :=
  {[ "IPV4_SRC_ADDR" := VInt 167772161 ]}.

(** A record that says version 4 and carries IPv6 addresses only. *)
Definition mislabelled : Flow :=
  {[ "IP_PROTOCOL_VERSION" := VInt 4;
     "IPV6_SRC_ADDR" := VInt (2 ^ 64 + 1); "IPV6_DST_ADDR" := VInt (2 ^ 64 + 2) ]}.

(** Both IPv4 keys present, the source address not an address. *)
Definition negative_address : Flow :=
  {[ "IPV4_SRC_ADDR" := VInt (-1); "IPV4_DST_ADDR" := VInt 167772162 ]}.

(** The source address not an address and the destination key missing. *)
Definition lone_null_address : Flow :=
  {[ "IPV4_SRC_ADDR" := VNone ]}.

(** A batch that opens with a record without a single field. *)
Definition blank_first : list Flow := [∅; upload; download].

(** A flow with the byte count of [download] and the direction of
    [upload]. *)
Definition twin : Flow := <[ "IN_BYTES" := VInt 1500 ]> upload.

(** [download] as a dual-stack exporter could write it, with IPv6 address
    fields besides the IPv4 ones. *)
Definition dual_stack : Flow :=
  <[ "IPV6_SRC_ADDR" := VInt (2 ^ 64 + 1) ]>
    (<[ "IPV6_DST_ADDR" := VInt (2 ^ 64 + 2) ]> download).


(** A [Connection] that lasted an hour and a second. *)
Definition hour_connection : Connection :=
  {| src := IPv4Address 167772161; dest := IPv4Address 167772162;
     src_port := VInt 443; dest_port := VInt 50000;
     size := VInt 123456789; duration := 3601000 |}.

(** ** Reference formulas *)

(** The duration string computed on integers alone. An hour sharp is still
    counted in minutes. *)
Definition duration_string (ms : Z) : string :=
  let d := ms / 1000 in
  if d <? 60 then fmt_d d +:+ " sec"
  else if 60 * 60 <? d then
    fmt_d (d / 60 ^ 2) +:+ ":" +:+ fmt_02d (d mod 60 ^ 2 / 60) +:+ "."
      +:+ fmt_02d (d mod 60) +:+ " hours"
  else fmt_02d (d / 60) +:+ ":" +:+ fmt_02d (d mod 60) +:+ " min".

(** A line of the report for an export starts with the time of that
    export. *)
Definition stamped (timestamp line : string) : Prop :=
  exists rest, line = timestamp +:+ ": " +:+ rest.

(** What the slot counts for in the number of records still to be paired. *)
Definition slot_weight (pending : option Flow) : nat :=
  if truthy pending then 1%nat else 0%nat.

(** A number of hundredths written with two decimals. *)
Definition two_decimals (h : Z) : string :=
  pretty (h / 100) +:+ "." +:+ fmt_02d (h mod 100).

(** The size string computed on integers alone: the quotient by the unit,
    rounded to hundredths, ties to even. *)
Definition size_string (n : Z) : string :=
  if n <? 1024 then fmt_d n +:+ "B"
  else if n <? 1024 ^ 2 then
    two_decimals (round_half_even (n * 100) 1024) +:+ "K"
  else if n <? 1024 ^ 3 then
    two_decimals (round_half_even (n * 100) (1024 ^ 2)) +:+ "M"
  else two_decimals (round_half_even (n * 100) (1024 ^ 3)) +:+ "G".

(** The slot of the aggregator holds nothing or a record with fields. *)
Definition slot_ok (pending : option Flow) : Prop :=
  match pending with
  | None => True
  | Some p => p <> ∅
  end.

(** What one export prints when the script sees no other export. *)
Definition batch_alone (sys : host) (data : dump) (export : string)
    : list string * option exn :=
  let r := export_body sys data export (None, []) in (snd (fst r), snd r).

(** The exports one after the other, each processed on its own, up to the
    first exception. *)
Fixpoint batches_apart (sys : host) (data : dump) (exports : list string)
    : list string * option exn :=
  match exports with
  | [] => ([], None)
  | export :: rest =>
      match batch_alone sys data export with
      | (out, Some e) => (out, Some e)
      | (out, None) =>
          let r := batches_apart sys data rest in ((out ++ fst r)%list, snd r)
      end
  end.

(** The two keys [getIPs] subscripts for a flow, source first. *)
Definition family_keys (flow : Flow) : string * string :=
  if use_ipv4 flow then ("IPV4_SRC_ADDR", "IPV4_DST_ADDR")
  else ("IPV6_SRC_ADDR", "IPV6_DST_ADDR").

(** The duration as the specification gives it: [LAST_SWITCHED -
    FIRST_SWITCHED], plus [2^32] when that is negative. *)
Definition corrected (first last : Z) : Z :=
  if last - first <? 0 then (last - first) + 2 ^ 32 else last - first.

(** * Properties *)

(** ** Reading a [Connection] off its dominant flow *)

Lemma bind_Ok {A B} (m : result A) (k : A -> result B) (b : B) :
  m ≫= k = Ok b -> exists a, m = Ok a /\ k a = Ok b.
Proof. destruct m as [a|e]; simpl; [eauto | discriminate]. Qed.

Lemma getitem_Ok (d : Flow) (key : string) (v : value) :
  getitem d key = Ok v <-> d !! key = Some v.
Proof.
  unfold getitem. destruct (d !! key); split; intros E; congruence.
Qed.

Section ConnectionFacts.

Context (sys : host).

Lemma Connection_init_of (flow1 flow2 src dest : Flow) :
  direction flow1 flow2 = Ok (src, dest) ->
  Connection_init sys flow1 flow2 = Connection_of sys src.
Proof. intros E. unfold Connection_init. rewrite E. reflexivity. Qed.

Lemma Connection_of_fields (big : Flow) (con : Connection) :
  Connection_of sys big = Ok con ->
  getIPs sys big = Ok (src con, dest con)
  /\ big !! "L4_SRC_PORT" = Some (src_port con)
  /\ big !! "L4_DST_PORT" = Some (dest_port con)
  /\ big !! "IN_BYTES" = Some (size con)
  /\ exists vf vl first last,
       big !! "FIRST_SWITCHED" = Some vf /\ big !! "LAST_SWITCHED" = Some vl
       /\ as_int vf = Some first /\ as_int vl = Some last
       /\ duration con = corrected first last.
Proof.
  unfold Connection_of. intros E.
  apply bind_Ok in E as ([s d] & Eips & E).
  apply bind_Ok in E as (sp & Esp & E). apply getitem_Ok in Esp.
  apply bind_Ok in E as (dp & Edp & E). apply getitem_Ok in Edp.
  apply bind_Ok in E as (sz & Esz & E). apply getitem_Ok in Esz.
  apply bind_Ok in E as (vl & Evl & E).
  apply bind_Ok in E as (vf & Evf & E).
  apply bind_Ok in E as (d0 & Ed0 & E).
  apply bind_Ok in E as (d1 & Ed1 & E).
  injection E as <-. simpl.
  unfold py_sub in Ed0.
  destruct (as_int vl) as [last|] eqn:El; [|discriminate].
  destruct (as_int vf) as [first|] eqn:Ef; [|discriminate].
  injection Ed0 as <-.
  repeat split; try assumption.
  exists vf, vl, first, last.
  rewrite <- !getitem_Ok. repeat split; try assumption.
  unfold corrected. destruct (last - first <? 0).
  - rewrite Evf, Evl in Ed1. simpl in Ed1. unfold py_sub in Ed1. simpl in Ed1.
    rewrite Ef in Ed1. simpl in Ed1. unfold py_add_int in Ed1.
    rewrite El in Ed1. injection Ed1 as <-. lia.
  - congruence.
Qed.

Lemma Connection_of_Ok (big : Flow) (ips : Pair ip) (sp dp sz : value)
    (first last : Z) :
  getIPs sys big = Ok ips ->
  big !! "L4_SRC_PORT" = Some sp ->
  big !! "L4_DST_PORT" = Some dp ->
  big !! "IN_BYTES" = Some sz ->
  big !! "FIRST_SWITCHED" = Some (VInt first) ->
  big !! "LAST_SWITCHED" = Some (VInt last) ->
  Connection_of sys big =
    Ok {| src := fst ips; dest := snd ips; src_port := sp; dest_port := dp;
          size := sz; duration := corrected first last |}.
Proof.
  intros Eips Esp Edp Esz Ef El.
  unfold Connection_of, getitem, corrected.
  rewrite Eips, Esp, Edp, Esz, Ef, El. simpl.
  destruct (last - first <? 0); simpl; do 2 f_equal; lia.
Qed.

Lemma direction_ints (flow1 flow2 : Flow) (a b : Z) :
  flow1 !! "IN_BYTES" = Some (VInt a) ->
  flow2 !! "IN_BYTES" = Some (VInt b) ->
  direction flow1 flow2 =
    Ok (if b <=? a then (flow1, flow2) else (flow2, flow1)).
Proof.
  intros E1 E2. unfold direction, getitem. rewrite E1, E2. simpl.
  rewrite Z.geb_leb. destruct (b <=? a); reflexivity.
Qed.

(** ** Duration *)

(** C1. When the dominant flow of a pair has [LAST_SWITCHED] below
    [FIRST_SWITCHED], the construction succeeds as soon as the addresses
    and ports of that flow can be read, and the duration it stores is
    [(2^32 - FIRST_SWITCHED) + LAST_SWITCHED]. *)
Theorem C1_duration_wraparound (flow1 flow2 big small : Flow)
    (ips : Pair ip) (sp dp : value) (first last : Z) :
  direction flow1 flow2 = Ok (big, small) ->
  getIPs sys big = Ok ips ->
  big !! "L4_SRC_PORT" = Some sp ->
  big !! "L4_DST_PORT" = Some dp ->
  big !! "FIRST_SWITCHED" = Some (VInt first) ->
  big !! "LAST_SWITCHED" = Some (VInt last) ->
  last < first ->
  exists con,
    Connection_init sys flow1 flow2 = Ok con
    /\ duration con = (2 ^ 32 - first) + last.
Proof.
  intros Edir Eips Esp Edp Ef El Hlt.
  rewrite (Connection_init_of _ _ _ _ Edir).
  assert (exists sz, big !! "IN_BYTES" = Some sz) as [sz Esz].
  { unfold direction in Edir.
    destruct (getitem flow1 "IN_BYTES") as [b1|] eqn:E1; [|discriminate].
    destruct (getitem flow2 "IN_BYTES") as [b2|] eqn:E2; [|discriminate].
    simpl in Edir. destruct (py_ge b1 b2) as [[]|]; simpl in Edir;
      try discriminate; injection Edir as <- <-;
      apply getitem_Ok in E1, E2; eauto. }
  rewrite (Connection_of_Ok _ _ _ _ _ _ _ Eips Esp Edp Esz Ef El).
  eexists; split; [reflexivity|]. simpl. unfold corrected.
  destruct (Z.ltb_spec (last - first) 0); lia.
Qed.

(** C5. The duration of a constructed [Connection] is never negative when
    the two switch times of its dominant flow are 32-bit unsigned values. *)
Theorem C5_duration_nonneg (flow1 flow2 big small : Flow)
    (first last : Z) (con : Connection) :
  direction flow1 flow2 = Ok (big, small) ->
  big !! "FIRST_SWITCHED" = Some (VInt first) ->
  big !! "LAST_SWITCHED" = Some (VInt last) ->
  0 <= first < 2 ^ 32 ->
  0 <= last < 2 ^ 32 ->
  Connection_init sys flow1 flow2 = Ok con ->
  0 <= duration con.
Proof.
  intros Edir Ef El Hf Hl E.
  rewrite (Connection_init_of _ _ _ _ Edir) in E.
  apply Connection_of_fields in E
    as (_ & _ & _ & _ & vf & vl & f & l & Evf & Evl & Ef' & El' & ->).
  rewrite Ef in Evf. rewrite El in Evl.
  injection Evf as <-. injection Evl as <-.
  simpl in Ef', El'. injection Ef' as <-. injection El' as <-.
  unfold corrected. destruct (Z.ltb_spec (last - first) 0); lia.
Qed.

End ConnectionFacts.

(** ** Direction and address family *)

Section AddressFacts.

Context (sys : host).

(** C2. With distinct integer [IN_BYTES], both argument orders build the
    [Connection] from the flow with the larger [IN_BYTES] alone: addresses,
    ports and size are those of that flow. *)
Theorem C2_direction_symmetric (flow1 flow2 : Flow) (a b : Z) :
  flow1 !! "IN_BYTES" = Some (VInt a) ->
  flow2 !! "IN_BYTES" = Some (VInt b) ->
  a <> b ->
  let big := if b <? a then flow1 else flow2 in
  Connection_init sys flow1 flow2 = Connection_of sys big
  /\ Connection_init sys flow2 flow1 = Connection_of sys big
  /\ forall con, Connection_of sys big = Ok con ->
       getIPs sys big = Ok (src con, dest con)
       /\ big !! "L4_SRC_PORT" = Some (src_port con)
       /\ big !! "L4_DST_PORT" = Some (dest_port con)
       /\ size con = VInt (Z.max a b).
Proof.
  intros E1 E2 Hne big.
  assert (Hbig : big !! "IN_BYTES" = Some (VInt (Z.max a b))).
  { subst big. destruct (Z.ltb_spec b a).
    - rewrite Z.max_l by lia. exact E1.
    - rewrite Z.max_r by lia. exact E2. }
  split; [|split].
  - unfold Connection_init. rewrite (direction_ints _ _ _ _ E1 E2).
    subst big. destruct (Z.leb_spec b a), (Z.ltb_spec b a);
      simpl; reflexivity || lia.
  - unfold Connection_init. rewrite (direction_ints _ _ _ _ E2 E1).
    subst big. destruct (Z.leb_spec a b), (Z.ltb_spec b a);
      simpl; reflexivity || lia.
  - intros con E.
    apply Connection_of_fields in E as (Hips & Hsp & Hdp & Hsz & _).
    repeat split; try assumption. congruence.
Qed.

Lemma py_eq_int_4 (v : value) : py_eq_int v 4 = true <-> v = VInt 4.
Proof.
  unfold py_eq_int. destruct v as [|[]|n|s]; simpl; split; intros E;
    try discriminate.
  - apply Z.eqb_eq in E. congruence.
  - injection E as ->. reflexivity.
Qed.

Lemma contains_true (d : Flow) (key : string) :
  contains d key = true <-> is_Some (d !! key).
Proof. unfold contains. apply bool_decide_eq_true. Qed.

Lemma use_ipv4_iff (flow : Flow) :
  use_ipv4 flow = true <->
    flow !! "IP_PROTOCOL_VERSION" = Some (VInt 4)
    \/ is_Some (flow !! "IPV4_SRC_ADDR")
    \/ is_Some (flow !! "IPV4_DST_ADDR").
Proof.
  unfold use_ipv4.
  destruct (contains flow "IP_PROTOCOL_VERSION"
            && match flow !! "IP_PROTOCOL_VERSION" with
               | Some v => py_eq_int v 4
               | None => false
               end) eqn:Ev.
  - split; [intros _|reflexivity]. left.
    apply andb_true_iff in Ev as [_ Ev].
    destruct (flow !! "IP_PROTOCOL_VERSION") as [v|]; [|discriminate].
    apply py_eq_int_4 in Ev. congruence.
  - destruct (contains flow "IPV4_SRC_ADDR" || contains flow "IPV4_DST_ADDR")
      eqn:Ea.
    + split; [intros _|reflexivity]. right.
      apply orb_true_iff in Ea as [Ea|Ea]; apply contains_true in Ea; auto.
    + split; [discriminate|]. intros [E4|Hany].
      * exfalso. rewrite E4 in Ev.
        assert (contains flow "IP_PROTOCOL_VERSION" = true) as Hc
          by (apply contains_true; rewrite E4; eauto).
        rewrite Hc in Ev. discriminate.
      * exfalso. apply orb_false_iff in Ea as [Ea1 Ea2].
        destruct Hany as [Hs|Hd];
          [apply contains_true in Hs|apply contains_true in Hd]; congruence.
Qed.

(** C3. [getIPs] takes the IPv4 pair exactly when the record says version 4
    or carries an IPv4 address key, and the IPv6 pair otherwise. A record
    with [IPV4_SRC_ADDR] and no version is IPv4; a record with neither
    IPv4 key nor version is IPv6. *)
Theorem C3_getIPs_family (flow : Flow) :
  (use_ipv4 flow = true <->
     flow !! "IP_PROTOCOL_VERSION" = Some (VInt 4)
     \/ is_Some (flow !! "IPV4_SRC_ADDR")
     \/ is_Some (flow !! "IPV4_DST_ADDR"))
  /\ getIPs sys flow =
       (if use_ipv4 flow
        then address_pair sys flow "IPV4_SRC_ADDR" "IPV4_DST_ADDR"
        else address_pair sys flow "IPV6_SRC_ADDR" "IPV6_DST_ADDR")
  /\ (is_Some (flow !! "IPV4_SRC_ADDR") ->
      flow !! "IP_PROTOCOL_VERSION" = None -> use_ipv4 flow = true)
  /\ (flow !! "IPV4_SRC_ADDR" = None -> flow !! "IPV4_DST_ADDR" = None ->
      flow !! "IP_PROTOCOL_VERSION" = None -> use_ipv4 flow = false).
Proof.
  pose proof (use_ipv4_iff flow) as Hiff.
  split; [exact Hiff|]. split; [reflexivity|]. split.
  - intros Hs _. apply Hiff. auto.
  - intros Es Ed Ev. apply not_true_is_false. intros Ht.
    apply Hiff in Ht as [Ht|[[x Ht]|[x Ht]]]; congruence.
Qed.

Lemma ip_address_raises (v : value) (e : exn) :
  ip_address sys v = Raise e -> e = ValueError.
Proof.
  unfold ip_address. intros E.
  destruct v as [|b|n|s]; simpl in E;
    repeat match type of E with
           | context [match ?c with _ => _ end] => destruct c
           end; congruence.
Qed.

Lemma address_pair_Ok (flow : Flow) (ks kd : string) (p : Pair ip) :
  address_pair sys flow ks kd = Ok p <->
  exists a b, flow !! ks = Some a /\ flow !! kd = Some b
              /\ ip_address sys a = Ok (fst p) /\ ip_address sys b = Ok (snd p).
Proof.
  unfold address_pair, getitem. split.
  - intros E.
    destruct (flow !! ks) as [a|]; [|discriminate]. simpl in E.
    destruct (ip_address sys a) as [s|] eqn:Ea; [|discriminate]. simpl in E.
    destruct (flow !! kd) as [b|]; [|discriminate]. simpl in E.
    destruct (ip_address sys b) as [d|] eqn:Eb; [|discriminate]. simpl in E.
    injection E as <-. exists a, b. auto.
  - intros (a & b & -> & -> & Ea & Eb). simpl. rewrite Ea. simpl.
    rewrite Eb. simpl. destruct p; reflexivity.
Qed.

(** C10 (as amended). [getIPs] subscripts the two keys of the selected
    family, source first, and gives each value to [ip_address] before it
    goes on. It returns a pair exactly when both keys are present and both
    values are addresses; a missing source key, or a missing destination
    key after a good source address, is a [KeyError] for that key; a present
    value that is no address is a [ValueError]. A record of version 4
    without [IPV4_SRC_ADDR] cannot become a [Connection]. *)
Theorem C10_getIPs_outcome (flow : Flow) :
  let ks := fst (family_keys flow) in
  let kd := snd (family_keys flow) in
  (forall p, getIPs sys flow = Ok p <->
     exists a b, flow !! ks = Some a /\ flow !! kd = Some b
                 /\ ip_address sys a = Ok (fst p)
                 /\ ip_address sys b = Ok (snd p))
  /\ (flow !! ks = None -> getIPs sys flow = Raise (KeyError ks))
  /\ (forall a s, flow !! ks = Some a -> ip_address sys a = Ok s ->
        flow !! kd = None -> getIPs sys flow = Raise (KeyError kd))
  /\ (forall a e, flow !! ks = Some a -> ip_address sys a = Raise e ->
        getIPs sys flow = Raise ValueError)
  /\ (forall a s b e, flow !! ks = Some a -> ip_address sys a = Ok s ->
        flow !! kd = Some b -> ip_address sys b = Raise e ->
        getIPs sys flow = Raise ValueError)
  /\ (flow !! "IP_PROTOCOL_VERSION" = Some (VInt 4) ->
      flow !! "IPV4_SRC_ADDR" = None ->
      getIPs sys flow = Raise (KeyError "IPV4_SRC_ADDR")
      /\ Connection_of sys flow = Raise (KeyError "IPV4_SRC_ADDR")).
Proof.
  intros ks kd.
  assert (Hget : getIPs sys flow = address_pair sys flow ks kd).
  { subst ks kd. unfold getIPs, family_keys. destruct (use_ipv4 flow); reflexivity. }
  rewrite Hget. split; [|split; [|split; [|split; [|split]]]].
  - intros p. apply address_pair_Ok.
  - intros E. unfold address_pair, getitem. rewrite E. reflexivity.
  - intros a s Ea Es Ed. unfold address_pair, getitem.
    rewrite Ea. simpl. rewrite Es. simpl. rewrite Ed. reflexivity.
  - intros a e Ea Ee. unfold address_pair, getitem.
    rewrite Ea. simpl. rewrite Ee. simpl.
    apply ip_address_raises in Ee. subst e. reflexivity.
  - intros a s b e Ea Es Eb Ee. unfold address_pair, getitem.
    rewrite Ea. simpl. rewrite Es. simpl. rewrite Eb. simpl. rewrite Ee. simpl.
    apply ip_address_raises in Ee. subst e. reflexivity.
  - intros E4 Es.
    assert (Hv4 : use_ipv4 flow = true) by (apply use_ipv4_iff; auto).
    rewrite <- Hget. unfold Connection_of, getIPs. rewrite Hv4.
    unfold address_pair, getitem. rewrite Es. split; reflexivity.
Qed.

End AddressFacts.

(** ** The pairing loop *)

Lemma for_each_app {S X : Type} (body : X -> S -> S * option exn)
    (xs ys : list X) (st : S) :
  for_each body (xs ++ ys)%list st =
    match for_each body xs st with
    | (st', None) => for_each body ys st'
    | (st', Some e) => (st', Some e)
    end.
Proof.
  revert st. induction xs as [|x xs IH]; intros st; simpl; [reflexivity|].
  destruct (body x st) as [st' [e|]]; [reflexivity|apply IH].
Qed.

Section PairingFacts.

Context {A : Type} (paired : Flow -> Flow -> A -> result A).

Lemma truthy_slot_ok (pending : option Flow) :
  slot_ok pending -> truthy pending = bool_decide (is_Some pending).
Proof.
  destruct pending as [p|]; simpl; intros Hok.
  - rewrite bool_decide_eq_false_2 by exact Hok. reflexivity.
  - reflexivity.
Qed.

Lemma flow_body_slot_step (flow : Flow) (pending : option Flow) (a : A) :
  slot_ok pending ->
  flow_body paired flow (pending, a) = slot_step paired flow (pending, a).
Proof.
  intros Hok. unfold flow_body, slot_step.
  rewrite (truthy_slot_ok _ Hok). destruct pending; reflexivity.
Qed.

Lemma slot_step_ok (flow : Flow) (pending : option Flow) (a : A) :
  flow <> ∅ -> slot_ok pending ->
  slot_ok (fst (fst (slot_step paired flow (pending, a)))).
Proof.
  intros Hne Hok. unfold slot_step. simpl.
  destruct pending as [p|]; simpl; [|exact Hne].
  destruct (paired p flow a); simpl; [exact I|exact Hok].
Qed.

Lemma for_each_flow_body_slot_step (flows : list Flow)
    (pending : option Flow) (a : A) :
  Forall (fun f => f <> ∅) flows -> slot_ok pending ->
  for_each (flow_body paired) flows (pending, a) =
  for_each (slot_step paired) flows (pending, a).
Proof.
  intros Hall. revert pending a.
  induction Hall as [|flow flows Hne _ IH]; intros pending a Hok;
    cbn [for_each]; [reflexivity|].
  rewrite (flow_body_slot_step _ _ _ Hok).
  pose proof (slot_step_ok flow pending a Hne Hok) as Hnext.
  destruct (slot_step paired flow (pending, a)) as [[pending' a'] [e|]];
    [reflexivity|]. apply IH. exact Hnext.
Qed.

End PairingFacts.

Lemma slot_step_two_at_a_time (flows : list Flow) (seen : list (Flow * Flow)) :
  for_each (slot_step record_pair) flows (None, seen) =
    ((snd (two_at_a_time flows), (seen ++ fst (two_at_a_time flows))%list), None).
Proof.
  revert seen.
  induction flows as [flows IH] using (induction_ltof1 _ (@length Flow)).
  unfold ltof in IH. intros seen.
  destruct flows as [|f [|g rest]].
  - simpl. rewrite app_nil_r. reflexivity.
  - simpl. rewrite app_nil_r. reflexivity.
  - change (for_each (slot_step record_pair) (f :: g :: rest) (None, seen))
      with (for_each (slot_step record_pair) rest (None, (seen ++ [(f, g)])%list)).
    rewrite IH by (simpl; lia).
    change (two_at_a_time (f :: g :: rest))
      with (let '(pairs, last) := two_at_a_time rest in ((f, g) :: pairs, last)).
    destruct (two_at_a_time rest) as [pairs last]. simpl.
    rewrite <- app_assoc. reflexivity.
Qed.

(** C4 (as amended). On a batch whose records all have at least one field,
    the loop body is the two-slot automaton: it stores a record when the
    slot is empty and otherwise hands (pending, incoming) to the pair
    handler and empties the slot. The handler is therefore given the records
    two at a time in arrival order, whatever they contain, and a last odd
    record stays in the slot. *)
Theorem C4_two_slot_automaton {A : Type} (paired : Flow -> Flow -> A -> result A)
    (flows : list Flow) (a : A) :
  Forall (fun f => f <> ∅) flows ->
  for_each (flow_body paired) flows (None, a) =
    for_each (slot_step paired) flows (None, a)
  /\ for_each (flow_body record_pair) flows (None, []) =
       ((snd (two_at_a_time flows), fst (two_at_a_time flows)), None).
Proof.
  intros Hall. split.
  - apply for_each_flow_body_slot_step; [exact Hall|exact I].
  - rewrite for_each_flow_body_slot_step by (exact Hall || exact I).
    apply slot_step_two_at_a_time.
Qed.

(** ** Floats of the size and duration strings *)

Lemma digits2_pos_bounds (p : positive) :
  2 ^ (Zpos (digits2_pos p) - 1) <= Zpos p < 2 ^ Zpos (digits2_pos p).
Proof.
  induction p as [p IH|p IH|]; cbn [digits2_pos].
  - rewrite Pos2Z.inj_succ, (Pos2Z.inj_xI p).
    replace (Z.succ (Zpos (digits2_pos p)) - 1) with (Z.succ (Zpos (digits2_pos p) - 1)) by lia.
    rewrite !Z.pow_succ_r by lia.
    generalize dependent (2 ^ (Zpos (digits2_pos p) - 1)).
    generalize dependent (2 ^ Zpos (digits2_pos p)). intros; lia.
  - rewrite Pos2Z.inj_succ, (Pos2Z.inj_xO p).
    replace (Z.succ (Zpos (digits2_pos p)) - 1) with (Z.succ (Zpos (digits2_pos p) - 1)) by lia.
    rewrite !Z.pow_succ_r by lia.
    generalize dependent (2 ^ (Zpos (digits2_pos p) - 1)).
    generalize dependent (2 ^ Zpos (digits2_pos p)). intros; lia.
  - simpl. lia.
Qed.

Lemma digits2_pos_unique (p : positive) (d : Z) :
  2 ^ (d - 1) <= Zpos p < 2 ^ d -> Zpos (digits2_pos p) = d.
Proof.
  intros [Hlo Hhi]. pose proof (digits2_pos_bounds p) as [Hlo' Hhi'].
  assert (0 < d).
  { destruct (Z.ltb_spec 0 d); [assumption|].
    exfalso. destruct (Z.eq_dec d 0) as [->|]; [simpl in Hhi; lia|].
    rewrite Z.pow_neg_r in Hhi by lia. lia. }
  destruct (Z.lt_trichotomy (Zpos (digits2_pos p)) d) as [Hlt|[Heq|Hgt]];
    [exfalso|assumption|exfalso].
  - assert (2 ^ Zpos (digits2_pos p) <= 2 ^ (d - 1))
      by (apply Z.pow_le_mono_r; lia). lia.
  - assert (2 ^ d <= 2 ^ (Zpos (digits2_pos p) - 1))
      by (apply Z.pow_le_mono_r; lia). lia.
Qed.

Lemma shr_fexp_exact (m : positive) (e : Z) :
  Zpos (digits2_pos m) = 53 -> -1074 <= e ->
  shr_fexp prec emax (Zpos m) e loc_Exact =
    (shr_record_of_loc (Zpos m) loc_Exact, e).
Proof.
  intros Hd He. unfold shr_fexp, shr, fexp, emin, Zdigits2, prec, emax.
  rewrite Hd.
  replace (Z.max (53 + e - 53) (3 - 1024 - 53) - e) with 0 by lia.
  reflexivity.
Qed.

Lemma binary_round_aux_exact (s : bool) (m : positive) (e : Z) :
  Zpos (digits2_pos m) = 53 -> -1074 <= e <= 971 ->
  binary_round_aux prec emax s (Zpos m) e loc_Exact = S754_finite s m e.
Proof.
  intros Hd He. unfold binary_round_aux.
  rewrite (shr_fexp_exact m e Hd) by lia.
  cbn [shr_record_of_loc shr_m loc_of_shr_record round_nearest_even].
  rewrite (shr_fexp_exact m e Hd) by lia.
  cbn [shr_record_of_loc shr_m].
  unfold emax, prec. destruct (Z.leb_spec e (1024 - 53)); [reflexivity|lia].
Qed.

Lemma iter_xO_spec (p k : positive) :
  Zpos (Pos.iter xO p k) = Zpos p * 2 ^ Zpos k
  /\ Zpos (digits2_pos (Pos.iter xO p k)) = Zpos (digits2_pos p) + Zpos k.
Proof.
  induction k as [|k [IHv IHd]] using Pos.peano_ind.
  - simpl. split; lia.
  - rewrite Pos.iter_succ. cbn [digits2_pos].
    rewrite (Pos2Z.inj_xO (Pos.iter xO p k)), !Pos2Z.inj_succ, IHv, IHd.
    rewrite Z.pow_succ_r by lia. split; lia.
Qed.

Lemma float_of_int_exact (p : positive) :
  Zpos (digits2_pos p) <= 53 ->
  exists m,
    float_of_int (Zpos p) = Ok (S754_finite false m (Zpos (digits2_pos p) - 53))
    /\ Zpos (digits2_pos m) = 53
    /\ Zpos m = Zpos p * 2 ^ (53 - Zpos (digits2_pos p)).
Proof.
  intros Hd. unfold float_of_int, binary_normalize, binary_round, shl_align.
  assert (Hf : fexp prec emax (Zpos (digits2_pos p) + 0)
               = Zpos (digits2_pos p) - 53)
    by (unfold fexp, emin, prec, emax; lia).
  rewrite Hf, Z.sub_0_r.
  destruct (Zpos (digits2_pos p) - 53) as [|k|k] eqn:Ek; [|lia|].
  - exists p. rewrite binary_round_aux_exact by lia.
    replace (53 - Zpos (digits2_pos p)) with 0 by lia.
    repeat split; lia.
  - destruct (iter_xO_spec p k) as [Hv Hdig].
    exists (Pos.iter xO p k).
    assert (Hk : Zpos (digits2_pos p) + Zpos k = 53) by lia.
    rewrite binary_round_aux_exact by lia.
    replace (53 - Zpos (digits2_pos p)) with (Zpos k) by lia.
    repeat split; lia.
Qed.

(** Division of a normal float by a power of two that is itself a normal
    float only moves the exponent. *)
Lemma SFdiv_pow2 (m : positive) (e ey : Z) :
  Zpos (digits2_pos m) = 53 ->
  -1073 <= e - ey - 52 <= 971 ->
  SFdiv prec emax (S754_finite false m e) (S754_finite false 4503599627370496 ey)
    = S754_finite false m (e - ey - 52).
Proof.
  intros Hd He. unfold SFdiv, SFdiv_core_binary, Zdigits2.
  rewrite Hd. change (Zpos (digits2_pos 4503599627370496)) with 53.
  assert (Hf : Z.min (fexp prec emax (53 + e - (53 + ey))) (e - ey)
               = e - ey - 53)
    by (unfold fexp, emin, prec, emax; lia).
  rewrite Hf.
  replace (e - ey - (e - ey - 53)) with 53 by lia.
  assert (Hq : Z.div_eucl (Z.shiftl (Zpos m) 53) 4503599627370496
               = (Zpos m~0, 0)).
  { rewrite Z.shiftl_mul_pow2 by lia.
    replace (Zpos m * 2 ^ 53) with (Zpos m~0 * 4503599627370496)
      by (rewrite (Pos2Z.inj_xO m); change (2 ^ 53) with (2 * 4503599627370496); ring).
    pose proof (Z.div_mul (Zpos m~0) 4503599627370496 ltac:(discriminate)) as Hdiv.
    pose proof (Z.mod_mul (Zpos m~0) 4503599627370496 ltac:(discriminate)) as Hmod.
    unfold Z.div in Hdiv. unfold Z.modulo in Hmod.
    destruct (Z.div_eucl (Zpos m~0 * 4503599627370496) 4503599627370496) as [q r].
    congruence. }
  rewrite Hq. cbn [xorb].
  change (new_location 4503599627370496 0) with loc_Exact.
  unfold binary_round_aux.
  assert (Hs1 : shr_fexp prec emax (Zpos m~0) (e - ey - 53) loc_Exact
                = (shr_record_of_loc (Zpos m) loc_Exact, e - ey - 52)).
  { unfold shr_fexp, shr, fexp, emin, Zdigits2, prec, emax.
    cbn [digits2_pos]. rewrite Pos2Z.inj_succ, Hd.
    replace (Z.max (Z.succ 53 + (e - ey - 53) - 53) (3 - 1024 - 53) - (e - ey - 53))
      with 1 by lia.
    cbn [iter_pos shr_1 shr_record_of_loc orb]. f_equal. clear Hq Hf. lia. }
  rewrite Hs1.
  cbn [shr_record_of_loc shr_m loc_of_shr_record round_nearest_even].
  clear Hq Hf Hs1.
  rewrite (shr_fexp_exact m _ Hd) by lia.
  cbn [shr_record_of_loc shr_m]. unfold prec, emax.
  destruct (Z.leb_spec (e - ey - 52) (1024 - 53)); [reflexivity|lia].
Qed.

Lemma SFltb_pow2 (m : positive) (e ey : Z) :
  Zpos (digits2_pos m) = 53 ->
  SFltb (S754_finite false m e) (S754_finite false 4503599627370496 ey)
    = (e <? ey).
Proof.
  intros Hd. unfold SFltb, SFcompare.
  destruct (Z.compare_spec e ey) as [->|Hlt|Hgt].
  - rewrite Z.ltb_irrefl.
    pose proof (digits2_pos_bounds m) as [Hlo _]. rewrite Hd in Hlo.
    change (2 ^ (53 - 1)) with 4503599627370496 in Hlo.
    destruct (Pos.compare_cont Eq m 4503599627370496) eqn:E;
      [reflexivity | exfalso | reflexivity].
    assert (Hlt : (m < 4503599627370496)%positive) by exact E.
    apply Pos2Z.pos_lt_pos in Hlt.
    apply (Z.lt_irrefl 4503599627370496). eapply Z.le_lt_trans; eassumption.
  - destruct (Z.ltb_spec e ey); [reflexivity|lia].
  - destruct (Z.ltb_spec e ey); [lia|reflexivity].
Qed.

Lemma round_half_even_scale (a b c : Z) :
  0 < b -> 0 < c ->
  round_half_even (a * c) (b * c) = round_half_even a b.
Proof.
  intros Hb Hc. unfold round_half_even.
  rewrite Z.div_mul_cancel_r by lia.
  rewrite Z.mul_mod_distr_r by lia.
  assert (Hcmp : (2 * (a mod b * c) ?= b * c) = (2 * (a mod b) ?= b)).
  { rewrite Z.mul_assoc.
    destruct (Z.compare_spec (2 * (a mod b)) b) as [E|E|E].
    - rewrite E. apply Z.compare_refl.
    - apply Z.compare_lt_iff. apply Z.mul_lt_mono_pos_r; assumption.
    - apply Z.compare_gt_iff. apply Z.mul_lt_mono_pos_r; assumption. }
  rewrite Hcmp. reflexivity.
Qed.

Lemma digits2_pos_le (p : positive) (k : Z) :
  0 <= k -> (Zpos (digits2_pos p) <= k <-> Zpos p < 2 ^ k).
Proof.
  intros Hk. pose proof (digits2_pos_bounds p) as [Hlo Hhi]. split.
  - intros Hd. eapply Z.lt_le_trans; [exact Hhi|].
    apply Z.pow_le_mono_r; lia.
  - intros Hp. destruct (Z.le_gt_cases (Zpos (digits2_pos p)) k) as [|Hgt];
      [assumption|exfalso].
    assert (2 ^ k <= 2 ^ (Zpos (digits2_pos p) - 1))
      by (apply Z.pow_le_mono_r; lia). lia.
Qed.

(** A normal float with a negative exponent, printed with two decimals. *)
Lemma fmt_2f_scaled (m : positive) (n j k : Z) :
  0 <= j -> 0 < k ->
  Zpos m = n * 2 ^ j ->
  fmt_2f (S754_finite false m (- (k + j)))
    = two_decimals (round_half_even (n * 100) (2 ^ k)).
Proof.
  intros Hj Hk Hm. unfold fmt_2f, two_decimals.
  destruct (Z.leb_spec 0 (- (k + j))); [lia|].
  rewrite Z.opp_involutive, Hm, Z.pow_add_r by lia.
  replace (n * 2 ^ j * 100) with (n * 100 * 2 ^ j) by ring.
  rewrite round_half_even_scale by (apply Z.pow_pos_nonneg; lia).
  reflexivity.
Qed.

Lemma py_lt_int (v : value) (n k : Z) :
  as_int v = Some n -> py_lt v (VInt k) = Ok (n <? k).
Proof. intros E. unfold py_lt. rewrite E. reflexivity. Qed.

Lemma int_div_float_pow2 (p : positive) (ey : Z) :
  Zpos (digits2_pos p) <= 53 -> -1000 <= ey <= 0 ->
  exists m,
    int_div_float (Zpos p) (S754_finite false 4503599627370496 ey)
      = Ok (S754_finite false m (Zpos (digits2_pos p) - 105 - ey))
    /\ Zpos (digits2_pos m) = 53
    /\ Zpos m = Zpos p * 2 ^ (53 - Zpos (digits2_pos p)).
Proof.
  intros Hd Hey. destruct (float_of_int_exact p Hd) as (m & Hf & Hdm & Hm).
  exists m. unfold int_div_float. rewrite Hf. unfold mbind, result_bind.
  rewrite SFdiv_pow2 by (assumption || lia).
  repeat split; try assumption. do 2 f_equal. lia.
Qed.

Lemma human_size_exact (con : Connection) (n : Z) :
  as_int (size con) = Some n -> n < 2 ^ 53 ->
  human_size con = Ok (size_string n).
Proof.
  intros Hn Hlt. unfold human_size, size_string.
  unfold py_fmt_d, py_div_float, number.
  rewrite (py_lt_int _ _ _ Hn), Hn. cbn [mbind result_bind].
  destruct (Z.ltb_spec n 1024) as [|Hge]; [reflexivity|].
  destruct n as [|p|p]; try lia.
  assert (Hd : Zpos (digits2_pos p) <= 53) by (apply digits2_pos_le; lia).
  change (float_lit 1024) with (S754_finite false 4503599627370496 (-42)).
  change (float_lit (1024 ^ 2)) with (S754_finite false 4503599627370496 (-32)).
  change (float_lit (1024 ^ 3)) with (S754_finite false 4503599627370496 (-22)).
  destruct (int_div_float_pow2 p (-42) Hd ltac:(lia)) as (m & E1 & Hdm & Hm).
  destruct (int_div_float_pow2 p (-32) Hd ltac:(lia)) as (m2 & E2 & _ & Hm2).
  destruct (int_div_float_pow2 p (-22) Hd ltac:(lia)) as (m3 & E3 & _ & Hm3).
  assert (Hm2' : m2 = m) by (apply Pos2Z.inj; congruence).
  assert (Hm3' : m3 = m) by (apply Pos2Z.inj; congruence).
  subst m2 m3.
  rewrite E1. cbn [mbind result_bind]. rewrite SFltb_pow2 by assumption.
  destruct (Z.ltb_spec (Zpos p) (1024 ^ 2)) as [H20|H20].
  - assert (Zpos (digits2_pos p) <= 20) by (apply digits2_pos_le; lia).
    destruct (Z.ltb_spec (Zpos (digits2_pos p) - 105 - -42) (-42)); [|lia].
    replace (Zpos (digits2_pos p) - 105 - -42)
      with (- (10 + (53 - Zpos (digits2_pos p)))) by lia.
    rewrite (fmt_2f_scaled m (Zpos p) _ 10) by (lia || assumption).
    reflexivity.
  - assert (~ Zpos (digits2_pos p) <= 20)
      by (rewrite digits2_pos_le by lia; change (2 ^ 20) with (1024 ^ 2); lia).
    destruct (Z.ltb_spec (Zpos (digits2_pos p) - 105 - -42) (-42)); [lia|].
    rewrite E2. cbn [mbind result_bind]. rewrite SFltb_pow2 by assumption.
    destruct (Z.ltb_spec (Zpos p) (1024 ^ 3)) as [H30|H30].
    + assert (Zpos (digits2_pos p) <= 30) by (apply digits2_pos_le; lia).
      destruct (Z.ltb_spec (Zpos (digits2_pos p) - 105 - -32) (-42)); [|lia].
      replace (Zpos (digits2_pos p) - 105 - -32)
        with (- (20 + (53 - Zpos (digits2_pos p)))) by lia.
      rewrite (fmt_2f_scaled m (Zpos p) _ 20) by (lia || assumption).
      reflexivity.
    + assert (~ Zpos (digits2_pos p) <= 30)
        by (rewrite digits2_pos_le by lia; change (2 ^ 30) with (1024 ^ 3); lia).
      destruct (Z.ltb_spec (Zpos (digits2_pos p) - 105 - -32) (-42)); [lia|].
      rewrite E3. cbn [mbind result_bind].
      replace (Zpos (digits2_pos p) - 105 - -22)
        with (- (30 + (53 - Zpos (digits2_pos p)))) by lia.
      rewrite (fmt_2f_scaled m (Zpos p) _ 30) by (lia || assumption).
      reflexivity.
Qed.

(** *** Rounding never overflows on moderate operands *)

Lemma shr_1_m (mrs : shr_record) :
  0 <= shr_m mrs -> shr_m (shr_1 mrs) = shr_m mrs / 2.
Proof.
  destruct mrs as [m r s]. cbn [shr_m]. intros Hm. unfold shr_1.
  destruct m as [|[p|p|]|p]; cbn [shr_m]; try lia;
    rewrite <- Z.div2_div; reflexivity.
Qed.

Lemma iter_pos_shr_1_m (p : positive) (mrs : shr_record) :
  0 <= shr_m mrs ->
  shr_m (SpecFloat.iter_pos shr_1 p mrs) = shr_m mrs / 2 ^ Zpos p.
Proof.
  revert mrs. induction p as [p IH|p IH|]; intros mrs Hm;
    cbn [SpecFloat.iter_pos].
  - assert (Hp : 0 < 2 ^ Zpos p) by (apply Z.pow_pos_nonneg; lia).
    assert (H1 : 0 <= shr_m (shr_1 mrs))
      by (rewrite shr_1_m by assumption; apply Z.div_pos; lia).
    assert (H2 : 0 <= shr_m (SpecFloat.iter_pos shr_1 p (shr_1 mrs)))
      by (rewrite IH by assumption; apply Z.div_pos; lia).
    rewrite IH, IH, shr_1_m by assumption.
    rewrite !Z.div_div by lia.
    f_equal. rewrite (Pos2Z.inj_xI p).
    rewrite <- Z.pow_add_r, <- Z.pow_succ_r by lia. f_equal. lia.
  - assert (Hp : 0 < 2 ^ Zpos p) by (apply Z.pow_pos_nonneg; lia).
    assert (H2 : 0 <= shr_m (SpecFloat.iter_pos shr_1 p mrs))
      by (rewrite IH by assumption; apply Z.div_pos; lia).
    rewrite IH, IH by assumption.
    rewrite Z.div_div by lia.
    f_equal. rewrite (Pos2Z.inj_xO p).
    rewrite <- Z.pow_add_r by lia. f_equal. lia.
  - rewrite shr_1_m by assumption. reflexivity.
Qed.

Lemma shr_m_of_loc (m : Z) (l : location) :
  shr_m (shr_record_of_loc m l) = m.
Proof. destruct l as [|[]]; reflexivity. Qed.

Lemma shr_fexp_spec (m e : Z) (l : location) :
  0 <= m ->
  let r := shr_fexp prec emax m e l in
  snd r = Z.max e (fexp prec emax (Zdigits2 m + e))
  /\ shr_m (fst r) = m / 2 ^ (snd r - e).
Proof.
  intros Hm. unfold shr_fexp, shr.
  destruct (fexp prec emax (Zdigits2 m + e) - e) as [|p|p] eqn:E; cbn [fst snd].
  - rewrite shr_m_of_loc, Z.sub_diag, Z.div_1_r. split; lia.
  - rewrite iter_pos_shr_1_m by (rewrite shr_m_of_loc; assumption).
    rewrite shr_m_of_loc. split; [lia|]. do 2 f_equal. lia.
  - rewrite shr_m_of_loc, Z.sub_diag, Z.div_1_r. split; lia.
Qed.

Lemma round_nearest_even_bounds (m : Z) (l : location) :
  m <= round_nearest_even m l <= m + 1.
Proof.
  unfold round_nearest_even. destruct l as [|[]]; try lia.
  destruct (Z.even m); lia.
Qed.

Lemma Zdigits2_le (m k : Z) :
  0 <= m < 2 ^ k -> 0 <= k -> 0 <= Zdigits2 m <= k.
Proof.
  intros [Hm Hlt] Hk. destruct m as [|p|p]; cbn [Zdigits2]; try lia.
  split; [lia|]. apply digits2_pos_le; assumption.
Qed.

Lemma Zdigits2_bound (m : Z) : 0 <= m -> m < 2 ^ Zdigits2 m /\ 0 <= Zdigits2 m.
Proof.
  intros Hm. destruct m as [|p|p]; cbn [Zdigits2].
  - simpl. lia.
  - split; [apply digits2_pos_bounds|lia].
  - lia.
Qed.

Lemma binary_round_aux_finite (s : bool) (mx ex : Z) (lx : location) :
  0 <= mx -> ex <= 971 -> Zdigits2 mx + ex <= 1023 ->
  binary_round_aux prec emax s mx ex lx = S754_zero s
  \/ exists m e, binary_round_aux prec emax s mx ex lx = S754_finite s m e.
Proof.
  intros Hmx Hex Hdig. unfold binary_round_aux.
  pose proof (shr_fexp_spec mx ex lx Hmx) as [He1 Hm1]. cbn zeta in He1, Hm1.
  destruct (shr_fexp prec emax mx ex lx) as [mrs1 e1]. cbn [fst snd] in He1, Hm1.
  destruct (Zdigits2_bound mx Hmx) as [HD HD0].
  set (D := Zdigits2 mx) in *.
  assert (Hj : 0 <= e1 - ex) by lia.
  assert (Hpj : 0 < 2 ^ (e1 - ex)) by (apply Z.pow_pos_nonneg; lia).
  assert (Hs1 : 0 <= shr_m mrs1) by (rewrite Hm1; apply Z.div_pos; lia).
  pose proof (round_nearest_even_bounds (shr_m mrs1) (loc_of_shr_record mrs1))
    as Hr.
  set (r := round_nearest_even (shr_m mrs1) (loc_of_shr_record mrs1)) in *.
  assert (Hr0 : 0 <= r) by lia.
  assert (Hrd : Zdigits2 r + e1 <= 1024).
  { unfold fexp, emin, prec, emax in He1.
    destruct (Z.le_gt_cases (e1 - ex) D) as [Hle|Hgt].
    - assert (Hq : shr_m mrs1 < 2 ^ (D - (e1 - ex))).
      { rewrite Hm1. apply Z.div_lt_upper_bound; [lia|].
        rewrite <- Z.pow_add_r by lia.
        replace (e1 - ex + (D - (e1 - ex))) with D by lia. exact HD. }
      assert (Hr2 : r < 2 ^ (D - (e1 - ex) + 1))
        by (rewrite Z.pow_add_r by lia; change (2 ^ 1) with 2; lia).
      pose proof (Zdigits2_le r (D - (e1 - ex) + 1) ltac:(lia) ltac:(lia)).
      lia.
    - assert (Hq : shr_m mrs1 = 0).
      { rewrite Hm1. apply Z.div_small. split; [lia|].
        eapply Z.lt_le_trans; [exact HD|]. apply Z.pow_le_mono_r; lia. }
      pose proof (Zdigits2_le r 1 ltac:(change (2 ^ 1) with 2; lia) ltac:(lia)).
      unfold D in *. lia. }
  pose proof (shr_fexp_spec r e1 loc_Exact Hr0) as [He2 Hm2].
  cbn zeta in He2, Hm2.
  destruct (shr_fexp prec emax r e1 loc_Exact) as [mrs2 e2].
  cbn [fst snd] in He2, Hm2.
  assert (Hpj2 : 0 < 2 ^ (e2 - e1)) by (apply Z.pow_pos_nonneg; lia).
  assert (Hs2 : 0 <= shr_m mrs2) by (rewrite Hm2; apply Z.div_pos; lia).
  destruct (shr_m mrs2) as [|m|m]; [left; reflexivity| |lia].
  right. exists m, e2.
  assert (He2' : e2 <= 971)
    by (unfold fexp, emin, prec, emax in He1, He2; unfold D in *; lia).
  unfold emax, prec. destruct (Z.leb_spec e2 (1024 - 53)); [reflexivity|lia].
Qed.

Lemma int_truediv_finite (a b : Z) :
  0 <= a < 2 ^ 1000 -> 0 < b < 2 ^ 1000 ->
  exists x, int_truediv a b = Ok x
            /\ (x = S754_zero false \/ exists m e, x = S754_finite false m e).
Proof.
  intros [Ha0 Ha] [Hb0 Hb]. unfold int_truediv.
  destruct (Z.eqb_spec b 0) as [|_]; [lia|].
  destruct b as [|pb|pb]; try lia.
  destruct a as [|pa|pa]; try lia.
  { exists (S754_zero false). split; [reflexivity|left; reflexivity]. }
  cbn [exact_int]. unfold SFdiv, SFdiv_core_binary. cbn [xorb Zdigits2].
  pose proof (digits2_pos_bounds pa) as [Hpa_lo Hpa_hi].
  pose proof (digits2_pos_bounds pb) as [Hpb_lo Hpb_hi].
  assert (Hd1 : Zpos (digits2_pos pa) <= 1000) by (apply digits2_pos_le; lia).
  assert (Hd2 : Zpos (digits2_pos pb) <= 1000) by (apply digits2_pos_le; lia).
  set (d1 := Zpos (digits2_pos pa)) in *.
  set (d2 := Zpos (digits2_pos pb)) in *.
  assert (Hd1' : 1 <= d1) by (unfold d1; lia).
  assert (Hd2' : 1 <= d2) by (unfold d2; lia).
  set (e' := Z.min (fexp prec emax (d1 + 0 - (d2 + 0))) (0 - 0)).
  assert (He' : e' = Z.min (d1 - d2 - 53) 0)
    by (unfold e', fexp, emin, prec, emax; lia).
  set (s := 0 - 0 - e').
  assert (Hs : 0 <= s) by (unfold s; lia).
  assert (Hm' : match s with
                | 0 => Zpos pa
                | Zpos _ => Z.shiftl (Zpos pa) s
                | Zneg _ => 0
                end = Zpos pa * 2 ^ s).
  { destruct s as [|k|k] eqn:Es; [simpl; lia| |lia].
    rewrite Z.shiftl_mul_pow2 by lia. reflexivity. }
  rewrite Hm'.
  assert (Hps : 0 < 2 ^ s) by (apply Z.pow_pos_nonneg; lia).
  assert (Hq : Z.div_eucl (Zpos pa * 2 ^ s) (Zpos pb)
               = ((Zpos pa * 2 ^ s) / Zpos pb, (Zpos pa * 2 ^ s) mod Zpos pb)).
  { unfold Z.div, Z.modulo.
    destruct (Z.div_eucl (Zpos pa * 2 ^ s) (Zpos pb)); reflexivity. }
  rewrite Hq.
  set (q := (Zpos pa * 2 ^ s) / Zpos pb).
  assert (Hq0 : 0 <= q) by (apply Z.div_pos; lia).
  assert (HK : 54 <= d1 + s - d2 + 1) by (unfold s; lia).
  assert (Hqlt : q < 2 ^ (d1 + s - d2 + 1)).
  { apply Z.div_lt_upper_bound; [lia|].
    assert (E : 2 ^ d1 * 2 ^ s = 2 ^ (d2 - 1) * 2 ^ (d1 + s - d2 + 1))
      by (rewrite <- !Z.pow_add_r by lia; f_equal; lia).
    apply Z.lt_le_trans with (2 ^ d1 * 2 ^ s).
    - apply Z.mul_lt_mono_pos_r; assumption.
    - rewrite E. apply Z.mul_le_mono_nonneg_r; [|exact Hpb_lo].
      apply Z.pow_nonneg; lia. }
  pose proof (Zdigits2_le q (d1 + s - d2 + 1) ltac:(lia) ltac:(lia)) as Hdq.
  destruct (binary_round_aux_finite false q e'
              (new_location (Zpos pb) ((Zpos pa * 2 ^ s) mod Zpos pb))
              Hq0 ltac:(lia) ltac:(unfold s in *; lia)) as [E|(m & e & E)];
    rewrite E.
  - exists (S754_zero false). split; [reflexivity|left; reflexivity].
  - exists (S754_finite false m e). split; [reflexivity|right; eauto].
Qed.

Lemma fmt_float_Ok (x : spec_float) :
  x = S754_zero false \/ (exists m e, x = S754_finite false m e) ->
  (exists s, fmt_d_float x = Ok s) /\ (exists s, fmt_02d_float x = Ok s).
Proof.
  intros [->|(m & e & ->)]; split; eexists; reflexivity.
Qed.

Lemma human_duration_seconds (con : Connection) :
  duration con / 1000 < 60 ->
  human_duration con = Ok (fmt_d (duration con / 1000) +:+ " sec").
Proof.
  intros Hlt. unfold human_duration.
  destruct (Z.ltb_spec (duration con / 1000) 60); [reflexivity|lia].
Qed.

Lemma human_duration_total (con : Connection) :
  duration con < 2 ^ 1000 -> exists s, human_duration con = Ok s.
Proof.
  intros Hlt. unfold human_duration.
  destruct (Z.ltb_spec (duration con / 1000) 60) as [|Hge]; [eauto|].
  assert (Hd : 0 <= duration con / 1000 < 2 ^ 1000).
  { split; [lia|].
    assert (0 <= duration con) by (destruct (Z.le_gt_cases 0 (duration con)) as [|Hneg];
      [assumption|]; pose proof (Z.div_lt_upper_bound (duration con) 1000 0 ltac:(lia) ltac:(lia)); lia).
    eapply Z.le_lt_trans; [|exact Hlt].
    apply Z.div_le_upper_bound; lia. }
  assert (H60 : 0 < 60 < 2 ^ 1000)
    by (split; [lia|apply Z.lt_trans with (2 ^ 6); [reflexivity|apply Z.pow_lt_mono_r; lia]]).
  assert (H3600 : 0 < 60 ^ 2 < 2 ^ 1000)
    by (split; [reflexivity|apply Z.lt_trans with (2 ^ 12); [reflexivity|apply Z.pow_lt_mono_r; lia]]).
  assert (Hmod : 0 <= (duration con / 1000) mod 60 ^ 2 < 2 ^ 1000).
  { pose proof (Z.mod_pos_bound (duration con / 1000) (60 ^ 2) ltac:(reflexivity)).
    split; [lia|]. apply Z.lt_trans with (60 ^ 2); lia. }
  destruct (int_truediv_finite _ _ Hd H60) as (x & Ex & Hx).
  destruct (int_truediv_finite _ _ Hd H3600) as (h & Eh & Hh).
  destruct (int_truediv_finite _ _ Hmod H60) as (m & Em & Hm).
  destruct (fmt_float_Ok h Hh) as [[sh Esh] _].
  destruct (fmt_float_Ok m Hm) as [_ [sm Esm]].
  destruct (fmt_float_Ok x Hx) as [_ [sx Esx]].
  rewrite Ex. cbn [mbind result_bind].
  destruct (SFltb (float_lit 60) x).
  - rewrite Eh, Em. cbn [mbind result_bind].
    rewrite Esh. cbn [mbind result_bind]. rewrite Esm. cbn [mbind result_bind].
    eauto.
  - rewrite Esx. cbn [mbind result_bind]. eauto.
Qed.

(** ** Export batches *)

Section BatchFacts.

Context (sys : host).

Lemma report_app (timestamp : string) (pending flow : Flow) (out : list string) :
  report sys timestamp pending flow out =
    (printed ← report sys timestamp pending flow []; Ok (out ++ printed)%list).
Proof.
  unfold report.
  destruct (Connection_init sys pending flow) as [con|e]; [|reflexivity]. simpl.
  destruct (py_gt (size con) (VInt (1024 ^ 2))) as [[]|e]; simpl;
    [| rewrite app_nil_r; reflexivity | reflexivity].
  destruct (summary sys timestamp con); reflexivity.
Qed.

Lemma flow_body_app (timestamp : string) (flow : Flow)
    (pending : option Flow) (out : list string) :
  flow_body (report sys timestamp) flow (pending, out) =
    let r := flow_body (report sys timestamp) flow (pending, []) in
    ((fst (fst r), (out ++ snd (fst r))%list), snd r).
Proof.
  unfold flow_body. destruct (negb (truthy pending)).
  - simpl. rewrite app_nil_r. reflexivity.
  - destruct pending as [p|].
    + rewrite report_app.
      destruct (report sys timestamp p flow []) as [printed|e]; simpl;
        [|rewrite app_nil_r]; reflexivity.
    + simpl. rewrite app_nil_r. reflexivity.
Qed.

Lemma flows_loop_app (timestamp : string) (flows : list Flow)
    (pending : option Flow) (out : list string) :
  for_each (flow_body (report sys timestamp)) flows (pending, out) =
    let r := for_each (flow_body (report sys timestamp)) flows (pending, []) in
    ((fst (fst r), (out ++ snd (fst r))%list), snd r).
Proof.
  revert pending out.
  induction flows as [|flow flows IH]; intros pending out; cbn [for_each].
  - simpl. rewrite app_nil_r. reflexivity.
  - rewrite flow_body_app.
    destruct (flow_body (report sys timestamp) flow (pending, []))
      as [[pending' printed] [e|]]; cbn zeta; cbn [fst snd].
    + reflexivity.
    + rewrite IH. rewrite (IH pending' printed). cbn zeta; cbn [fst snd].
      rewrite app_assoc. reflexivity.
Qed.

Lemma export_body_alone (data : dump) (export : string)
    (pending : option Flow) (out : list string) :
  let r := export_body sys data export (pending, out) in
  snd (fst r) = (out ++ fst (batch_alone sys data export))%list
  /\ snd r = snd (batch_alone sys data export).
Proof.
  unfold batch_alone, export_body. simpl.
  destruct (timestamp_of sys export) as [timestamp|e]; simpl.
  - rewrite flows_loop_app. simpl. split; reflexivity.
  - rewrite app_nil_r. split; reflexivity.
Qed.

Lemma exports_loop_apart (data : dump) (exports : list string)
    (pending : option Flow) (out : list string) :
  let r := for_each (export_body sys data) exports (pending, out) in
  snd (fst r) = (out ++ fst (batches_apart sys data exports))%list
  /\ snd r = snd (batches_apart sys data exports).
Proof.
  revert pending out.
  induction exports as [|export rest IH]; intros pending out; cbn [for_each].
  - simpl. rewrite app_nil_r. split; reflexivity.
  - pose proof (export_body_alone data export pending out) as [Hout Herr].
    cbn zeta in Hout, Herr. cbn [batches_apart].
    destruct (export_body sys data export (pending, out)) as [[pending' out'] err].
    destruct (batch_alone sys data export) as [alone err'].
    simpl in Hout, Herr. subst out' err'.
    destruct err as [e|].
    + simpl. split; reflexivity.
    + destruct (IH pending' (out ++ alone)%list) as [IHout IHerr].
      cbn zeta in IHout, IHerr. simpl.
      rewrite IHout, IHerr, app_assoc. split; reflexivity.
Qed.

(** C6. Every export starts with an empty slot, whatever the export before
    it left there: the whole run prints what the exports print one by one,
    each on its own. A record that stays unpaired at the end of a batch
    prints nothing and is gone when the next export starts. *)
Theorem C6_no_leak_across_exports (data : dump) :
  (forall export timestamp pending out,
     timestamp_of sys export = Ok timestamp ->
     export_body sys data export (pending, out) =
     for_each (flow_body (report sys timestamp))
       (default [] (data !! export)) (None, out))
  /\ (forall exports pending out,
        let r := for_each (export_body sys data) exports (pending, out) in
        snd (fst r) = (out ++ fst (batches_apart sys data exports))%list
        /\ snd r = snd (batches_apart sys data exports))
  /\ (snd (fst (main sys data)), snd (main sys data))
       = batches_apart sys data (sorted data)
  /\ (forall timestamp flows last out out',
        for_each (flow_body (report sys timestamp)) flows (None, out)
          = ((None, out'), None) ->
        for_each (flow_body (report sys timestamp)) (flows ++ [last])%list (None, out)
          = ((Some last, out'), None)).
Proof.
  split; [|split; [|split]].
  - intros export timestamp pending out E. unfold export_body.
    rewrite E. reflexivity.
  - intros exports pending out. apply exports_loop_apart.
  - unfold main.
    destruct (exports_loop_apart data (sorted data) None []) as [Hout Herr].
    cbn zeta in Hout, Herr. rewrite Hout, Herr. simpl.
    destruct (batches_apart sys data (sorted data)); reflexivity.
  - intros timestamp flows last out out' E.
    rewrite for_each_app, E. reflexivity.
Qed.

Lemma py_gt_int (v : value) (n k : Z) :
  as_int v = Some n -> py_gt v (VInt k) = Ok (n >? k).
Proof. intros E. unfold py_gt. rewrite E. reflexivity. Qed.

Lemma service_total (con : Connection) :
  (forall e, getservbyport sys (src_port con) = Raise e -> e = OSError) ->
  (forall e, getservbyport sys (dest_port con) = Raise e -> e = OSError) ->
  exists name, service sys con = Ok name.
Proof.
  intros Hs Hd. unfold service, except_OSError.
  destruct (getservbyport sys (src_port con)) as [name|e]; [eauto|].
  rewrite (Hs e eq_refl).
  destruct (getservbyport sys (dest_port con)) as [name|e']; [eauto|].
  rewrite (Hd e' eq_refl). eauto.
Qed.

Lemma summary_total (timestamp : string) (con : Connection) (n : Z) :
  as_int (size con) = Some n -> n < 2 ^ 53 ->
  duration con < 2 ^ 1000 ->
  (forall e, getservbyport sys (src_port con) = Raise e -> e = OSError) ->
  (forall e, getservbyport sys (dest_port con) = Raise e -> e = OSError) ->
  exists line, summary sys timestamp con = Ok line.
Proof.
  intros Hn Hlt Hd Hs Hp. unfold summary.
  destruct (service_total con Hs Hp) as [name ->].
  rewrite (human_size_exact con n Hn Hlt).
  destruct (human_duration_total con Hd) as [d ->].
  cbn [mbind result_bind]. eauto.
Qed.

(** C9. A pair whose [Connection] has integer size [n] prints its summary
    line exactly when [n > 1024^2]: at or below the threshold nothing is
    printed, above it the line of [summary] is what is printed. The line
    is there for every size below [2^53] and duration below [2^1000] when
    the service lookup raises nothing but [OSError]. *)
Theorem C9_report_threshold (timestamp : string) (pending flow : Flow)
    (con : Connection) (n : Z) (out : list string) :
  Connection_init sys pending flow = Ok con ->
  as_int (size con) = Some n ->
  (n <= 1024 ^ 2 -> report sys timestamp pending flow out = Ok out)
  /\ (1024 ^ 2 < n ->
      report sys timestamp pending flow out =
        (line ← summary sys timestamp con; Ok (out ++ [line])%list))
  /\ (forall out', report sys timestamp pending flow out = Ok out' ->
        (1024 ^ 2 < n <-> exists line, out' = (out ++ [line])%list)
        /\ (n <= 1024 ^ 2 <-> out' = out))
  /\ (1024 ^ 2 < n < 2 ^ 53 -> duration con < 2 ^ 1000 ->
      (forall e, getservbyport sys (src_port con) = Raise e -> e = OSError) ->
      (forall e, getservbyport sys (dest_port con) = Raise e -> e = OSError) ->
      exists line,
        report sys timestamp pending flow out = Ok (out ++ [line])%list).
Proof.
  intros Econ Esize.
  assert (Hrep : report sys timestamp pending flow out =
            if n >? 1024 ^ 2
            then (line ← summary sys timestamp con; Ok (out ++ [line])%list)
            else Ok out).
  { unfold report. rewrite Econ. cbn [mbind result_bind].
    rewrite (py_gt_int _ _ _ Esize). reflexivity. }
  rewrite Hrep. destruct (Z.gtb_spec n (1024 ^ 2)) as [Hgt|Hle].
  - split; [lia|]. split; [reflexivity|]. split.
    + intros out' E. destruct (summary sys timestamp con) as [line|e];
        [|discriminate]. simpl in E. injection E as <-.
      split; split; try lia.
      * intros _. eauto.
      * intros Habs. exfalso.
        apply (f_equal (@length string)) in Habs.
        rewrite length_app in Habs. simpl in Habs. lia.
    + intros [_ H53] Hd Hs Hp.
      destruct (summary_total timestamp con n Esize H53 Hd Hs Hp) as [line ->].
      exists line. reflexivity.
  - split; [reflexivity|]. split; [lia|]. split; [|lia].
    intros out' E. injection E as <-.
    split; split; try lia; try reflexivity.
    intros [line Habs]. exfalso.
    apply (f_equal (@length string)) in Habs.
    rewrite length_app in Habs. simpl in Habs. lia.
Qed.

(** C8 (as amended). [service] never lets an [OSError] of the lookup
    through. When the lookup fails with [OSError] for both ports the result
    is the string ["unknown"]; when only the source port fails it is the
    service of the destination port. *)
Theorem C8_service_fallback (con : Connection) :
  service sys con <> Raise OSError
  /\ (getservbyport sys (src_port con) = Raise OSError ->
      getservbyport sys (dest_port con) = Raise OSError ->
      service sys con = Ok "unknown")
  /\ (forall name, getservbyport sys (src_port con) = Raise OSError ->
        getservbyport sys (dest_port con) = Ok name ->
        service sys con = Ok name)
  /\ (forall name, getservbyport sys (src_port con) = Ok name ->
        service sys con = Ok name).
Proof.
  unfold service, except_OSError. repeat split.
  - destruct (getservbyport sys (src_port con)) as [?|[]];
      try discriminate.
    destruct (getservbyport sys (dest_port con)) as [?|[]]; discriminate.
  - intros -> ->. reflexivity.
  - intros name -> ->. reflexivity.
  - intros name ->. reflexivity.
Qed.

End BatchFacts.

(** ** Human-readable strings *)

(** C7. A size from 1024 up to, not including, [1024^2] reads as
    kibibytes with two decimals, and a duration under 60 whole seconds as
    the floor of the milliseconds by 1000 followed by " sec". A [Connection]
    whose dominant flow has 2048 bytes and was switched from 1000 to 4000
    reads "2.00K" and "3 sec". *)
Theorem C7_human_strings :
  (forall con n, as_int (size con) = Some n -> 1024 <= n < 1024 ^ 2 ->
     human_size con =
       Ok (two_decimals (round_half_even (n * 100) 1024) +:+ "K"))
  /\ (forall con, duration con / 1000 < 60 ->
        human_duration con = Ok (fmt_d (duration con / 1000) +:+ " sec"))
  /\ (forall sys flow1 flow2 big small con,
        direction flow1 flow2 = Ok (big, small) ->
        big !! "IN_BYTES" = Some (VInt 2048) ->
        big !! "FIRST_SWITCHED" = Some (VInt 1000) ->
        big !! "LAST_SWITCHED" = Some (VInt 4000) ->
        Connection_init sys flow1 flow2 = Ok con ->
        human_size con = Ok "2.00K" /\ human_duration con = Ok "3 sec").
Proof.
  split; [|split].
  - intros con n Hn [Hlo Hhi].
    rewrite (human_size_exact con n Hn) by lia. unfold size_string.
    destruct (Z.ltb_spec n 1024); [lia|].
    destruct (Z.ltb_spec n (1024 ^ 2)); [reflexivity|lia].
  - exact human_duration_seconds.
  - intros sys flow1 flow2 big small con Edir Esz Ef El E.
    rewrite (Connection_init_of _ _ _ _ _ Edir) in E.
    apply Connection_of_fields in E
      as (_ & _ & _ & Hsz & vf & vl & f & l & Evf & Evl & Ef' & El' & Hd).
    rewrite Ef in Evf. rewrite El in Evl. rewrite Esz in Hsz.
    injection Evf as <-. injection Evl as <-. injection Hsz as Hsz.
    simpl in Ef', El'. injection Ef' as <-. injection El' as <-.
    unfold human_size, human_duration. rewrite <- Hsz, Hd.
    split; vm_compute; reflexivity.
Qed.

(** ** Instances *)

Lemma C1_witness :
  exists con,
    Connection_init offline wrapped upload = Ok con /\ duration con = 11.
Proof.
  exact (C1_duration_wraparound offline wrapped upload wrapped upload
           (IPv4Address 167772161, IPv4Address 167772162)
           (VInt 443) (VInt 50000) 4294967290 5
           ltac:(vm_compute; reflexivity) ltac:(vm_compute; reflexivity)
           ltac:(vm_compute; reflexivity) ltac:(vm_compute; reflexivity)
           ltac:(vm_compute; reflexivity) ltac:(vm_compute; reflexivity)
           ltac:(lia)).
Defined.

Lemma C5_witness : 0 <= duration wrapped_connection.
Proof.
  apply (C5_duration_nonneg offline wrapped upload wrapped upload
           4294967290 5 wrapped_connection);
    try (vm_compute; reflexivity); lia.
Defined.

Lemma C2_witness :
  Connection_init offline upload download = Connection_of offline download
  /\ Connection_init offline download upload = Connection_of offline download
  /\ forall con, Connection_of offline download = Ok con ->
       getIPs offline download = Ok (src con, dest con)
       /\ download !! "L4_SRC_PORT" = Some (src_port con)
       /\ download !! "L4_DST_PORT" = Some (dest_port con)
       /\ size con = VInt 1500.
Proof.
  exact (C2_direction_symmetric offline upload download 500 1500
           ltac:(vm_compute; reflexivity) ltac:(vm_compute; reflexivity)
           ltac:(lia)).
Defined.

Lemma C4_witness :
  for_each (flow_body record_pair) [upload; download; bulk] (None, []) =
    for_each (slot_step record_pair) [upload; download; bulk] (None, [])
  /\ for_each (flow_body record_pair) [upload; download; bulk] (None, []) =
       ((Some bulk, [(upload, download)]), None).
Proof.
  apply (C4_two_slot_automaton record_pair [upload; download; bulk] []).
  repeat constructor; intros E;
    apply (f_equal (fun m : Flow => m !! "IN_BYTES")) in E;
    vm_compute in E; discriminate.
Defined.

Lemma C7_witness :
  human_size kib_connection = Ok "2.00K"
  /\ human_duration kib_connection = Ok "3 sec".
Proof.
  apply (proj2 (proj2 C7_human_strings) offline tiny kib kib tiny kib_connection);
    vm_compute; reflexivity.
Defined.

Lemma C9_witness :
  exists line,
    report offline "1500000000" upload bulk [] = Ok ([] ++ [line])%list.
Proof.
  apply (proj2 (proj2 (proj2
           (C9_report_threshold offline "1500000000" upload bulk
              bulk_connection (1024 ^ 2 + 1) []
              ltac:(vm_compute; reflexivity) ltac:(vm_compute; reflexivity))))).
  - lia.
  - apply Z.lt_trans with (2 ^ 12); [reflexivity|].
    apply Z.pow_lt_mono_r; lia.
  - intros e E. vm_compute in E. congruence.
  - intros e E. vm_compute in E. congruence.
Defined.

Lemma C3_witness : use_ipv4 unversioned = true.
Proof.
  apply (proj1 (proj2 (proj2 (C3_getIPs_family offline unversioned))));
    vm_compute; eauto.
Defined.

Lemma C8_witness : service offline kib_connection = Ok "unknown".
Proof.
  apply (proj1 (proj2 (C8_service_fallback offline kib_connection)));
    reflexivity.
Defined.

Lemma C10_witness :
  getIPs offline mislabelled = Raise (KeyError "IPV4_SRC_ADDR")
  /\ Connection_of offline mislabelled = Raise (KeyError "IPV4_SRC_ADDR").
Proof.
  apply (proj2 (proj2 (proj2 (proj2 (proj2
           (C10_getIPs_outcome offline mislabelled))))));
    vm_compute; reflexivity.
Defined.

Lemma C6_witness :
  (snd (fst (main offline two_exports)), snd (main offline two_exports))
  = batches_apart offline two_exports (sorted two_exports).
Proof.
  exact (proj1 (proj2 (proj2 (C6_no_leak_across_exports offline two_exports)))).
Defined.

(** What the script prints for [two_exports]: one line per export, and
    the odd record of the first export pairs with nothing. *)
Example main_two_exports :
  main offline two_exports =
    ((None,
      ["1500000000: UNKNOWN | 1.00M    | 3 sec     | 10.0.0.1 (10.0.0.1) to 10.0.0.2 (10.0.0.2)";
       "1500000300: UNKNOWN | 1.00M    | 3 sec     | 10.0.0.1 (10.0.0.1) to 10.0.0.2 (10.0.0.2)"]),
     None).
Proof. vm_compute. reflexivity. Qed.

(** A few sizes and durations as the script prints them. *)
Example human_size_samples :
  map (fun n => human_size
                  {| src := IPv4Address 0; dest := IPv4Address 0;
                     src_port := VNone; dest_port := VNone;
                     size := VInt n; duration := 0 |})
      [1023; 1024; 1500; 1024 ^ 2 - 1; 1024 ^ 2; 123456789; 1024 ^ 3]
  = [Ok "1023B"; Ok "1.00K"; Ok "1.46K"; Ok "1024.00K"; Ok "1.00M";
     Ok "117.74M"; Ok "1.00G"].
Proof. vm_compute. reflexivity. Qed.

Example human_duration_samples :
  map (fun d => human_duration
                  {| src := IPv4Address 0; dest := IPv4Address 0;
                     src_port := VNone; dest_port := VNone;
                     size := VInt 0; duration := d |})
      [59999; 60000; 3600999; 3601000; 2 ^ 32 - 1]
  = [Ok "59 sec"; Ok "01:00 min"; Ok "60:00 min"; Ok "1:00.01 hours";
     Ok "1193:02.47 hours"].
Proof. vm_compute. reflexivity. Qed.

(** ** Where the code departs from a claim *)

(** C4, counterexample. A batch that opens with a record without fields:
    the loop takes the empty dict in the slot for no pending flow, so the
    pairs are (2nd, 3rd), where the two-slot automaton pairs (1st, 2nd) and
    keeps the 3rd. *)
Lemma C4_counterexample :
  for_each (flow_body record_pair) blank_first (None, []) =
    ((None, [(upload, download)]), None)
  /\ for_each (slot_step record_pair) blank_first (None, []) =
       ((Some download, [(∅, upload)]), None).
Proof. split; vm_compute; reflexivity. Qed.

(** C8, counterexample. Both lookups fail and the result is the word
    "unknown", which is neither port. *)
Lemma C8_counterexample :
  getservbyport offline (src_port kib_connection) = Raise OSError
  /\ getservbyport offline (dest_port kib_connection) = Raise OSError
  /\ service offline kib_connection = Ok "unknown"
  /\ src_port kib_connection = VInt 443
  /\ dest_port kib_connection = VInt 50000
  /\ "unknown" <> pretty 443
  /\ "unknown" <> pretty 50000.
Proof. repeat split; try reflexivity; vm_compute; discriminate. Qed.

(** C10, counterexample. Both keys of the selected family are present and
    no pair is returned; and with the destination key missing the error is
    the [ValueError] of the source value, not a [KeyError]. *)
Lemma C10_counterexample :
  (use_ipv4 negative_address = true
   /\ is_Some (negative_address !! "IPV4_SRC_ADDR")
   /\ is_Some (negative_address !! "IPV4_DST_ADDR")
   /\ forall sys, getIPs sys negative_address = Raise ValueError)
  /\ (use_ipv4 lone_null_address = true
      /\ lone_null_address !! "IPV4_DST_ADDR" = None
      /\ forall sys, getIPs sys lone_null_address = Raise ValueError).
Proof.
  repeat split; try (vm_compute; reflexivity); vm_compute; eauto.
Qed.

(** * Further properties *)

(** ** Construction of a [Connection] *)

Section ConstructionFacts.

Context (sys : host).

Lemma Connection_init_ints (flow1 flow2 : Flow) (a b : Z) :
  flow1 !! "IN_BYTES" = Some (VInt a) ->
  flow2 !! "IN_BYTES" = Some (VInt b) ->
  Connection_init sys flow1 flow2 =
    Connection_of sys (if a <? b then flow2 else flow1).
Proof.
  intros E1 E2. unfold Connection_init.
  rewrite (direction_ints _ _ _ _ E1 E2).
  destruct (Z.leb_spec b a), (Z.ltb_spec a b); try lia; reflexivity.
Qed.

(** X1. The first argument is the source unless the second has strictly
    more bytes: on a tie each order builds the [Connection] from its own
    first argument. The size is the larger of the two byte counts in either
    case. *)
Theorem X1_first_flow_wins_ties (flow1 flow2 : Flow) (a b : Z) :
  flow1 !! "IN_BYTES" = Some (VInt a) ->
  flow2 !! "IN_BYTES" = Some (VInt b) ->
  Connection_init sys flow1 flow2 =
    Connection_of sys (if a <? b then flow2 else flow1)
  /\ (a = b ->
      Connection_init sys flow1 flow2 = Connection_of sys flow1
      /\ Connection_init sys flow2 flow1 = Connection_of sys flow2)
  /\ (forall con, Connection_init sys flow1 flow2 = Ok con ->
        size con = VInt (Z.max a b)).
Proof.
  intros E1 E2. split; [|split].
  - apply Connection_init_ints; assumption.
  - intros <-. rewrite (Connection_init_ints _ _ _ _ E1 E2).
    rewrite (Connection_init_ints _ _ _ _ E2 E1).
    rewrite Z.ltb_irrefl. split; reflexivity.
  - intros con E. rewrite (Connection_init_ints _ _ _ _ E1 E2) in E.
    apply Connection_of_fields in E as (_ & _ & _ & Hsz & _).
    destruct (Z.ltb_spec a b).
    + rewrite Z.max_r by lia. congruence.
    + rewrite Z.max_l by lia. congruence.
Qed.

(** X2. The flow with fewer bytes contributes its byte count and nothing
    else: any other flow that does not outweigh the first one gives the same
    [Connection], in either argument position when it is strictly
    smaller. *)
Theorem X2_smaller_flow_is_ignored (flow1 flow2 flow2' : Flow) (a b b' : Z) :
  flow1 !! "IN_BYTES" = Some (VInt a) ->
  flow2 !! "IN_BYTES" = Some (VInt b) ->
  flow2' !! "IN_BYTES" = Some (VInt b') ->
  (b <= a -> b' <= a ->
   Connection_init sys flow1 flow2 = Connection_init sys flow1 flow2')
  /\ (b < a -> b' < a ->
      Connection_init sys flow2 flow1 = Connection_init sys flow2' flow1).
Proof.
  intros E1 E2 E2'. split; intros Hb Hb'.
  - rewrite (Connection_init_ints _ _ _ _ E1 E2).
    rewrite (Connection_init_ints _ _ _ _ E1 E2').
    destruct (Z.ltb_spec a b), (Z.ltb_spec a b'); try lia. reflexivity.
  - rewrite (Connection_init_ints _ _ _ _ E2 E1).
    rewrite (Connection_init_ints _ _ _ _ E2' E1).
    destruct (Z.ltb_spec b a), (Z.ltb_spec b' a); try lia. reflexivity.
Qed.

(** X3. Errors of the byte comparison: a flow without [IN_BYTES] is a
    [KeyError] for that key, the first flow being looked at first, and byte
    counts that do not compare, a number with a string or [None] with
    anything, are a [TypeError]. *)
Theorem X3_IN_BYTES_errors (flow1 flow2 : Flow) :
  (flow1 !! "IN_BYTES" = None ->
   Connection_init sys flow1 flow2 = Raise (KeyError "IN_BYTES"))
  /\ (is_Some (flow1 !! "IN_BYTES") -> flow2 !! "IN_BYTES" = None ->
      Connection_init sys flow1 flow2 = Raise (KeyError "IN_BYTES"))
  /\ (forall n s,
        flow1 !! "IN_BYTES" = Some (VInt n) ->
        flow2 !! "IN_BYTES" = Some (VStr s) ->
        Connection_init sys flow1 flow2 = Raise TypeError
        /\ Connection_init sys flow2 flow1 = Raise TypeError)
  /\ (forall v,
        flow1 !! "IN_BYTES" = Some VNone ->
        flow2 !! "IN_BYTES" = Some v ->
        Connection_init sys flow1 flow2 = Raise TypeError
        /\ Connection_init sys flow2 flow1 = Raise TypeError).
Proof.
  unfold Connection_init, direction, getitem.
  split; [|split; [|split]].
  - intros ->. reflexivity.
  - intros [v ->] ->. reflexivity.
  - intros n s -> ->. split; reflexivity.
  - intros v -> ->. split; destruct v as [|[]|n|s]; reflexivity.
Qed.

(** X4. A [Connection] is built from its source flow exactly when that flow
    has addresses [getIPs] accepts, both ports, [IN_BYTES] and two numeric
    switch times; the ports and the size are stored as they are found. *)
Theorem X4_Connection_of_succeeds (big : Flow) :
  (exists con, Connection_of sys big = Ok con) <->
  (exists ips sp dp sz vf vl first last,
     getIPs sys big = Ok ips
     /\ big !! "L4_SRC_PORT" = Some sp
     /\ big !! "L4_DST_PORT" = Some dp
     /\ big !! "IN_BYTES" = Some sz
     /\ big !! "FIRST_SWITCHED" = Some vf
     /\ big !! "LAST_SWITCHED" = Some vl
     /\ as_int vf = Some first
     /\ as_int vl = Some last).
Proof.
  split.
  - intros [con E].
    apply Connection_of_fields in E
      as (Hips & Hsp & Hdp & Hsz & vf & vl & first & last & Hf & Hl & Hfi & Hli & _).
    exists (src con, dest con), (src_port con), (dest_port con), (size con),
      vf, vl, first, last. repeat split; assumption.
  - intros (ips & sp & dp & sz & vf & vl & first & last
            & Hips & Hsp & Hdp & Hsz & Hf & Hl & Hfi & Hli).
    unfold Connection_of, getitem.
    rewrite Hips, Hsp, Hdp, Hsz, Hf, Hl. cbn [mbind result_bind].
    unfold py_sub. rewrite Hfi, Hli. cbn [mbind result_bind].
    destruct (last - first <? 0); cbn [mbind result_bind as_int];
      [unfold py_add_int; rewrite Hli|]; eauto.
Qed.

(** X5. For 32-bit switch times the duration is their difference modulo
    [2^32], so it stays below [2^32]. The correction is applied once: for
    arbitrary integers the duration is negative exactly when
    [FIRST_SWITCHED] exceeds [LAST_SWITCHED] by more than [2^32], and it is
    the plain difference when [FIRST_SWITCHED <= LAST_SWITCHED]. *)
Theorem X5_duration_modulo (flow1 flow2 big small : Flow)
    (first last : Z) (con : Connection) :
  direction flow1 flow2 = Ok (big, small) ->
  big !! "FIRST_SWITCHED" = Some (VInt first) ->
  big !! "LAST_SWITCHED" = Some (VInt last) ->
  Connection_init sys flow1 flow2 = Ok con ->
  (0 <= first < 2 ^ 32 -> 0 <= last < 2 ^ 32 ->
   duration con = (last - first) mod 2 ^ 32 /\ duration con < 2 ^ 32)
  /\ (duration con < 0 <-> last + 2 ^ 32 < first)
  /\ (first <= last -> duration con = last - first).
Proof.
  intros Edir Ef El E.
  rewrite (Connection_init_of _ _ _ _ _ Edir) in E.
  apply Connection_of_fields in E
    as (_ & _ & _ & _ & vf & vl & f & l & Evf & Evl & Ef' & El' & ->).
  rewrite Ef in Evf. rewrite El in Evl.
  injection Evf as <-. injection Evl as <-.
  simpl in Ef', El'. injection Ef' as <-. injection El' as <-.
  unfold corrected. split; [|split].
  - intros Hf Hl. destruct (Z.ltb_spec (last - first) 0).
    + split; [|lia]. apply Z.mod_unique with (-1); lia.
    + split; [|lia]. symmetry. apply Z.mod_small. lia.
  - destruct (Z.ltb_spec (last - first) 0); lia.
  - intros Hle. destruct (Z.ltb_spec (last - first) 0); lia.
Qed.

(** X6. [getIPs] on a flow it takes for IPv4 looks at the version field
    and the two IPv4 address fields only: a flow that agrees on these three
    keys gives the same result, whatever IPv6 fields either one carries. *)
Theorem X6_getIPs_reads_one_family (flow flow' : Flow) :
  use_ipv4 flow = true ->
  flow' !! "IP_PROTOCOL_VERSION" = flow !! "IP_PROTOCOL_VERSION" ->
  flow' !! "IPV4_SRC_ADDR" = flow !! "IPV4_SRC_ADDR" ->
  flow' !! "IPV4_DST_ADDR" = flow !! "IPV4_DST_ADDR" ->
  use_ipv4 flow' = true /\ getIPs sys flow' = getIPs sys flow.
Proof.
  intros Hv4 Ev Es Ed.
  assert (Hv4' : use_ipv4 flow' = true).
  { apply use_ipv4_iff. apply use_ipv4_iff in Hv4. rewrite Ev, Es, Ed.
    exact Hv4. }
  split; [exact Hv4'|]. unfold getIPs. rewrite Hv4, Hv4'.
  unfold address_pair, getitem. rewrite Es, Ed. reflexivity.
Qed.

End ConstructionFacts.

(** ** Strings of a [Connection] *)

Lemma float_of_int_raises (n : Z) (e : exn) :
  float_of_int n = Raise e -> e = OverflowError.
Proof.
  unfold float_of_int.
  destruct (binary_normalize prec emax n 0 false); congruence.
Qed.

Lemma human_size_raises_number (con : Connection) (n : Z) (e : exn) :
  as_int (size con) = Some n -> human_size con = Raise e -> e = OverflowError.
Proof.
  intros Hn. unfold human_size, py_fmt_d, py_div_float, number, int_div_float.
  rewrite (py_lt_int _ _ _ Hn), Hn. cbn [mbind result_bind].
  destruct (n <? 1024); [discriminate|].
  destruct (float_of_int n) as [x|e'] eqn:Ef; cbn [mbind result_bind].
  - destruct (SFltb _ _); [discriminate|].
    destruct (SFltb _ _); discriminate.
  - intros E. injection E as <-. exact (float_of_int_raises n e' Ef).
Qed.

(** X7. For an integer size below [2^53] the size string is the one integer
    arithmetic gives: bytes below 1024, then the quotient by [1024],
    [1024^2] or [1024^3] rounded to hundredths, ties to even, with the unit
    changing at [1024^2] and [1024^3] bytes. No float rounding shows. *)
Theorem X7_human_size_units (con : Connection) (n : Z) :
  as_int (size con) = Some n -> n < 2 ^ 53 ->
  human_size con = Ok (size_string n).
Proof. exact (human_size_exact con n). Qed.

(** X8. [human_size] raises a [TypeError] exactly for a size that is no
    number (a string or [None]); for a number the only exception it can
    raise is the [OverflowError] of the conversion to a float, and not below
    [2^53]. *)
Theorem X8_human_size_errors (con : Connection) :
  (as_int (size con) = None -> human_size con = Raise TypeError)
  /\ (forall e, human_size con = Raise e ->
        (as_int (size con) = None /\ e = TypeError)
        \/ (exists n, as_int (size con) = Some n /\ 2 ^ 53 <= n
                      /\ e = OverflowError)).
Proof.
  assert (Hnone : as_int (size con) = None -> human_size con = Raise TypeError).
  { intros E. unfold human_size, py_lt. rewrite E.
    destruct (size con) as [|b|n|s]; try reflexivity; destruct b; discriminate. }
  split; [exact Hnone|]. intros e E.
  destruct (as_int (size con)) as [n|] eqn:Hn.
  - right. exists n. split; [reflexivity|].
    pose proof (human_size_raises_number con n e Hn E) as ->.
    split; [|reflexivity].
    destruct (Z.le_gt_cases (2 ^ 53) n) as [|Hlt]; [assumption|].
    rewrite (human_size_exact con n Hn Hlt) in E. discriminate.
  - left. rewrite (Hnone eq_refl) in E. split; congruence.
Qed.

(** X9. [__repr__] of a [Connection] with an integer size below [2^53]
    never raises and shows the two addresses and the size string. *)
Theorem X9_repr (con : Connection) (n : Z) :
  as_int (size con) = Some n -> n < 2 ^ 53 ->
  Connection_repr con =
    Ok ("<Connection from " +:+ compressed (src con) +:+ " to "
          +:+ compressed (dest con) +:+ ", size " +:+ size_string n +:+ ">").
Proof.
  intros Hn Hlt. unfold Connection_repr.
  rewrite (human_size_exact con n Hn Hlt). reflexivity.
Qed.

Section ServiceFacts.

Context (sys : host).

(** X10. [service] hands on every exception of the lookup that is no
    [OSError]: it raises [e] exactly when the lookup of the source port
    raises [e], or that lookup fails with [OSError] and the lookup of the
    destination port raises [e], for an [e] other than [OSError]. *)
Theorem X10_service_propagates (con : Connection) (e : exn) :
  service sys con = Raise e <->
  e <> OSError
  /\ (getservbyport sys (src_port con) = Raise e
      \/ (getservbyport sys (src_port con) = Raise OSError
          /\ getservbyport sys (dest_port con) = Raise e)).
Proof.
  unfold service, except_OSError.
  destruct (getservbyport sys (src_port con)) as [?|[]];
    destruct (getservbyport sys (dest_port con)) as [?|[]];
    (split;
     [ intros E; try discriminate; injection E as <-;
       (split; [discriminate|]); (left; reflexivity) || (right; split; reflexivity)
     | intros [Hne [E|[E1 E2]]]; congruence ]).
Qed.

End ServiceFacts.

(** ** The report loop *)

#[local] Instance leb_total : Total (fun s t => Is_true (String.leb s t)).
Proof.
  intros s t. destruct (String.leb_total s t) as [E|E]; rewrite E; simpl; auto.
Qed.

(** X11. [sorted(data)] visits every export of the dump exactly once, in
    the order of the keys as strings. *)
Theorem X11_exports_in_key_order (data : dump) :
  Sorted (fun s t => Is_true (String.leb s t)) (sorted data)
  /\ NoDup (sorted data)
  /\ forall export, export ∈ sorted data <-> is_Some (data !! export).
Proof.
  unfold sorted. split; [|split].
  - apply Sorted_merge_sort. apply _.
  - rewrite merge_sort_Permutation. apply NoDup_elements.
  - intros export. rewrite merge_sort_Permutation, elem_of_elements.
    apply elem_of_dom.
Qed.

Section LoopFacts.

Context (sys : host).

Lemma report_length (timestamp : string) (pending flow : Flow)
    (out out' : list string) :
  report sys timestamp pending flow out = Ok out' ->
  (length out <= length out' <= length out + 1)%nat.
Proof.
  unfold report.
  destruct (Connection_init sys pending flow) as [con|]; [|discriminate].
  cbn [mbind result_bind].
  destruct (py_gt (size con) (VInt (1024 ^ 2))) as [[]|]; cbn [mbind result_bind];
    try discriminate.
  - destruct (summary sys timestamp con); [|discriminate].
    cbn [mbind result_bind]. intros E. injection E as <-.
    rewrite length_app. simpl. lia.
  - intros E. injection E as <-. lia.
Qed.

Lemma flow_body_length (timestamp : string) (flow : Flow)
    (pending : option Flow) (out : list string) :
  let r := flow_body (report sys timestamp) flow (pending, out) in
  (2 * length (snd (fst r)) + slot_weight (fst (fst r))
   <= 2 * length out + slot_weight pending + 1)%nat.
Proof.
  cbn zeta. unfold flow_body, slot_weight at 2.
  destruct (truthy pending) eqn:Ht; cbn [negb].
  - destruct pending as [p|]; [|discriminate].
    destruct (report sys timestamp p flow out) as [out'|e] eqn:Er; cbn [fst snd].
    + pose proof (report_length _ _ _ _ _ Er). unfold slot_weight. simpl. lia.
    + unfold slot_weight. rewrite Ht. lia.
  - cbn [fst snd]. unfold slot_weight. destruct (truthy (Some flow)); lia.
Qed.

Lemma flows_loop_length (timestamp : string) (flows : list Flow)
    (pending : option Flow) (out : list string) :
  let r := for_each (flow_body (report sys timestamp)) flows (pending, out) in
  (2 * length (snd (fst r)) + slot_weight (fst (fst r))
   <= 2 * length out + slot_weight pending + length flows)%nat.
Proof.
  revert pending out.
  induction flows as [|flow flows IH]; intros pending out; cbn [for_each].
  - cbn zeta. cbn [fst snd length]. lia.
  - pose proof (flow_body_length timestamp flow pending out) as Hstep.
    cbn zeta in Hstep |- *.
    destruct (flow_body (report sys timestamp) flow (pending, out))
      as [[pending' out'] [e|]]; cbn [fst snd] in Hstep |- *.
    + cbn [length]. lia.
    + specialize (IH pending' out'). cbn zeta in IH. cbn [length]. lia.
Qed.

(** X12. An export of [n] records prints at most [n / 2] lines, whatever
    the records hold and whether or not the loop ends in an exception. *)
Theorem X12_at_most_one_line_per_pair (data : dump) (export : string)
    (pending : option Flow) (out : list string) :
  let r := export_body sys data export (pending, out) in
  (length (snd (fst r))
   <= length out + length (default [] (data !! export)) / 2)%nat.
Proof.
  cbn zeta. unfold export_body.
  destruct (timestamp_of sys export) as [timestamp|e]; cbn [fst snd].
  - pose proof (flows_loop_length timestamp (default [] (data !! export))
                  None out) as H.
    cbn zeta in H. unfold slot_weight at 2 in H. cbn [truthy] in H.
    set (o := snd (fst (for_each (flow_body (report sys timestamp))
                          (default [] (data !! export)) (None, out)))) in *.
    assert (Hle : (2 * (length o - length out)
                   <= length (default [] (data !! export)))%nat) by lia.
    apply (Nat.div_le_lower_bound _ 2) in Hle; lia.
  - lia.
Qed.


Lemma report_stamped (timestamp : string) (pending flow : Flow)
    (out out' : list string) :
  Forall (stamped timestamp) out ->
  report sys timestamp pending flow out = Ok out' ->
  Forall (stamped timestamp) out'.
Proof.
  intros Hall. unfold report.
  destruct (Connection_init sys pending flow) as [con|]; [|discriminate].
  cbn [mbind result_bind].
  destruct (py_gt (size con) (VInt (1024 ^ 2))) as [[]|]; cbn [mbind result_bind];
    try discriminate.
  - unfold summary.
    destruct (service sys con); [|discriminate]. cbn [mbind result_bind].
    destruct (human_size con); [|discriminate]. cbn [mbind result_bind].
    destruct (human_duration con); [|discriminate]. cbn [mbind result_bind].
    intros E. injection E as <-. apply Forall_app. split; [assumption|].
    constructor; [|constructor]. eexists. reflexivity.
  - intros E. injection E as <-. assumption.
Qed.

Lemma flows_loop_stamped (timestamp : string) (flows : list Flow)
    (pending : option Flow) (out : list string) :
  Forall (stamped timestamp) out ->
  Forall (stamped timestamp)
    (snd (fst (for_each (flow_body (report sys timestamp)) flows (pending, out)))).
Proof.
  revert pending out.
  induction flows as [|flow flows IH]; intros pending out Hall; cbn [for_each].
  - assumption.
  - unfold flow_body at 1. destruct (negb (truthy pending)).
    + apply IH. assumption.
    + destruct pending as [p|]; [|assumption].
      destruct (report sys timestamp p flow out) as [out'|e] eqn:Er.
      * apply IH. eapply report_stamped; eassumption.
      * assumption.
Qed.

(** X14. Every line an export prints starts with the time of that export
    followed by a colon and a space. *)
Theorem X14_lines_carry_the_export_time (data : dump) (export timestamp : string)
    (pending : option Flow) :
  timestamp_of sys export = Ok timestamp ->
  Forall (stamped timestamp)
    (snd (fst (export_body sys data export (pending, [])))).
Proof.
  intros Et. unfold export_body. rewrite Et.
  apply flows_loop_stamped. constructor.
Qed.

(** X15. A record without fields is never paired when it comes first: the
    record after it takes its place in the slot and no [Connection] is
    constructed from it. When it comes second, the construction fails on
    it with a [KeyError] for [IN_BYTES] and the slot keeps the first
    record. *)
Theorem X15_record_without_fields (timestamp : string) (flow : Flow)
    (rest : list Flow) (pending : option Flow) (out : list string) :
  truthy pending = false ->
  for_each (flow_body (report sys timestamp)) (∅ :: flow :: rest) (pending, out)
    = for_each (flow_body (report sys timestamp)) (flow :: rest) (pending, out)
  /\ (flow <> ∅ ->
      for_each (flow_body (report sys timestamp)) (flow :: ∅ :: rest) (pending, out)
        = ((Some flow, out), Some (KeyError "IN_BYTES"))).
Proof.
  intros Ht. split.
  - cbn [for_each]. unfold flow_body. rewrite Ht. reflexivity.
  - intros Hne. cbn [for_each]. unfold flow_body at 1. rewrite Ht. cbn [negb].
    unfold flow_body. cbn [truthy].
    rewrite bool_decide_eq_false_2 by exact Hne. cbn [negb].
    unfold report, Connection_init, direction, getitem.
    rewrite lookup_empty.
    destruct (flow !! "IN_BYTES"); reflexivity.
Qed.

End LoopFacts.

(** ** Integer division through floats *)

Lemma Zdigits2_unique (x d : Z) :
  2 ^ (d - 1) <= x < 2 ^ d -> 1 <= d -> Zdigits2 x = d.
Proof.
  intros [Hlo Hhi] Hd.
  assert (0 < 2 ^ (d - 1)) by (apply Z.pow_pos_nonneg; lia).
  destruct x as [|p|p]; try lia.
  cbn [Zdigits2]. apply digits2_pos_unique. split; assumption.
Qed.

(** Rounding a quotient of 53 or 54 bits: the result is normal, and its
    mantissa is the quotient chopped to the result's exponent, or one
    more. *)
Lemma binary_round_aux_normal (s : bool) (q e0 : Z) (l : location) :
  2 ^ 52 <= q < 2 ^ 54 -> -1000 <= e0 <= 900 ->
  exists m e,
    binary_round_aux prec emax s q e0 l = S754_finite s m e
    /\ Zpos (digits2_pos m) = 53
    /\ e0 <= e <= e0 + 2
    /\ q / 2 ^ (e - e0) <= Zpos m <= q / 2 ^ (e - e0) + 1.
Proof.
  intros [Hq52 Hq54] He0. unfold binary_round_aux.
  assert (Hq0 : 0 <= q) by (pose proof (Z.pow_pos_nonneg 2 52); lia).
  pose proof (shr_fexp_spec q e0 l Hq0) as [He1 Hm1]. cbn zeta in He1, Hm1.
  destruct (shr_fexp prec emax q e0 l) as [mrs1 e1]. cbn [fst snd] in He1, Hm1.
  set (m1 := round_nearest_even (shr_m mrs1) (loc_of_shr_record mrs1)).
  pose proof (round_nearest_even_bounds (shr_m mrs1) (loc_of_shr_record mrs1))
    as Hr. fold m1 in Hr.
  (* first shift: the quotient is brought to 53 bits *)
  assert (HQ : 2 ^ 52 <= shr_m mrs1 < 2 ^ 53
               /\ e0 <= e1 <= e0 + 1
               /\ shr_m mrs1 = q / 2 ^ (e1 - e0)).
  { destruct (Z.lt_ge_cases q (2 ^ 53)) as [Hlt|Hge].
    - assert (HD : Zdigits2 q = 53) by (apply Zdigits2_unique; simpl; lia).
      rewrite HD in He1. unfold fexp, emin, prec, emax in He1.
      assert (E : e1 = e0) by lia. clear He1. subst e1.
      rewrite Z.sub_diag, Z.pow_0_r, Z.div_1_r in Hm1. rewrite Hm1.
      rewrite Z.sub_diag, Z.pow_0_r, Z.div_1_r. lia.
    - assert (HD : Zdigits2 q = 54) by (apply Zdigits2_unique; simpl; lia).
      rewrite HD in He1. unfold fexp, emin, prec, emax in He1.
      assert (E : e1 = e0 + 1) by lia. clear He1. subst e1.
      replace (e0 + 1 - e0) with 1 in * by lia.
      change (2 ^ 1) with 2 in *.
      change (2 ^ 54) with (2 * 2 ^ 53) in Hq54.
      change (2 ^ 53) with (2 * 2 ^ 52) in Hge.
      assert (2 ^ 52 <= q / 2) by (apply Z.div_le_lower_bound; lia).
      assert (q / 2 < 2 ^ 53) by (apply Z.div_lt_upper_bound; lia).
      rewrite Hm1. lia. }
  destruct HQ as (HQ & He01 & HQq).
  assert (Hm1_0 : 0 <= m1) by (pose proof (Z.pow_pos_nonneg 2 52); lia).
  pose proof (shr_fexp_spec m1 e1 loc_Exact Hm1_0) as [He2 Hm2].
  cbn zeta in He2, Hm2.
  destruct (shr_fexp prec emax m1 e1 loc_Exact) as [mrs2 e2].
  cbn [fst snd] in He2, Hm2.
  destruct (Z.lt_ge_cases m1 (2 ^ 53)) as [Hlt|Hge].
  - (* no carry *)
    assert (HD : Zdigits2 m1 = 53) by (apply Zdigits2_unique; simpl; lia).
    rewrite HD in He2. unfold fexp, emin, prec, emax in He2.
    assert (E : e2 = e1) by lia. clear He2. subst e2.
    rewrite Z.sub_diag, Z.pow_0_r, Z.div_1_r in Hm2. rewrite Hm2.
    destruct m1 as [|m|m] eqn:Em1;
      [pose proof (Z.pow_pos_nonneg 2 52); lia| |lia].
    exists m, e1.
    unfold emax, prec. destruct (Z.leb_spec e1 (1024 - 53)); [|lia].
    split; [reflexivity|]. split.
    { apply digits2_pos_unique. simpl. lia. }
    split; [lia|]. rewrite <- HQq. lia.
  - (* the mantissa was rounded up to 2^53 *)
    assert (Em1 : m1 = 2 ^ 53) by lia.
    assert (HQ53 : shr_m mrs1 = 2 ^ 53 - 1) by lia.
    assert (HD : Zdigits2 m1 = 54) by (rewrite Em1; reflexivity).
    rewrite HD in He2. unfold fexp, emin, prec, emax in He2.
    assert (E : e2 = e1 + 1) by lia. clear He2. subst e2.
    replace (e1 + 1 - e1) with 1 in Hm2 by lia.
    rewrite Em1 in Hm2. change (2 ^ 53 / 2 ^ 1) with (2 ^ 52) in Hm2.
    rewrite Hm2. change (2 ^ 52) with (Zpos 4503599627370496).
    exists 4503599627370496%positive, (e1 + 1).
    unfold emax, prec. destruct (Z.leb_spec (e1 + 1) (1024 - 53)); [|lia].
    split; [reflexivity|]. split; [reflexivity|]. split; [lia|].
    replace (e1 + 1 - e0) with ((e1 - e0) + 1) by lia.
    rewrite Z.pow_add_r by lia. change (2 ^ 1) with 2.
    rewrite <- Z.div_div by (try apply Z.pow_pos_nonneg; try apply Z.pow_nonzero; lia).
    rewrite <- HQq, HQ53.
    change ((2 ^ 53 - 1) / 2) with 4503599627370495. lia.
Qed.

(** [a / b] on two positive [int]s below [2^50]: a normal float whose
    mantissa, at the scale [2^(-e)] of its exponent, is the integer quotient
    of [a * 2^(-e)] by [b] or one more; and that scale is beyond [b]. *)
Lemma int_truediv_spec (a b : Z) :
  0 < a < 2 ^ 50 -> 0 < b < 2 ^ 50 ->
  exists m e,
    int_truediv a b = Ok (S754_finite false m e)
    /\ Zpos (digits2_pos m) = 53
    /\ e <= 0
    /\ b < 2 ^ (- e)
    /\ a * 2 ^ (- e) / b <= Zpos m <= a * 2 ^ (- e) / b + 1.
Proof.
  intros [Ha0 Ha] [Hb0 Hb]. unfold int_truediv.
  destruct (Z.eqb_spec b 0) as [|_]; [lia|].
  destruct b as [|pb|pb]; try lia.
  destruct a as [|pa|pa]; try lia.
  cbn [exact_int]. unfold SFdiv, SFdiv_core_binary. cbn [xorb Zdigits2].
  pose proof (digits2_pos_bounds pa) as [Hpa_lo Hpa_hi].
  pose proof (digits2_pos_bounds pb) as [Hpb_lo Hpb_hi].
  assert (Hd1 : Zpos (digits2_pos pa) <= 50) by (apply digits2_pos_le; lia).
  assert (Hd2 : Zpos (digits2_pos pb) <= 50) by (apply digits2_pos_le; lia).
  set (d1 := Zpos (digits2_pos pa)) in *.
  set (d2 := Zpos (digits2_pos pb)) in *.
  assert (Hd1' : 1 <= d1) by (unfold d1; lia).
  assert (Hd2' : 1 <= d2) by (unfold d2; lia).
  set (e' := Z.min (fexp prec emax (d1 + 0 - (d2 + 0))) (0 - 0)).
  assert (He' : e' = d1 - d2 - 53)
    by (unfold e', fexp, emin, prec, emax; lia).
  set (s := 0 - 0 - e').
  assert (Hs : s = 53 + d2 - d1) by (unfold s; lia).
  assert (Hm' : match s with
                | 0 => Zpos pa
                | Zpos _ => Z.shiftl (Zpos pa) s
                | Zneg _ => 0
                end = Zpos pa * 2 ^ s).
  { destruct s as [|k|k] eqn:Es; [lia| |lia].
    rewrite Z.shiftl_mul_pow2 by lia. reflexivity. }
  rewrite Hm'.
  assert (Hps : 0 < 2 ^ s) by (apply Z.pow_pos_nonneg; lia).
  assert (Hq : Z.div_eucl (Zpos pa * 2 ^ s) (Zpos pb)
               = ((Zpos pa * 2 ^ s) / Zpos pb, (Zpos pa * 2 ^ s) mod Zpos pb)).
  { unfold Z.div, Z.modulo.
    destruct (Z.div_eucl (Zpos pa * 2 ^ s) (Zpos pb)); reflexivity. }
  rewrite Hq.
  set (q := (Zpos pa * 2 ^ s) / Zpos pb).
  assert (Hq54 : q < 2 ^ 54).
  { apply Z.div_lt_upper_bound; [lia|].
    assert (E : 2 ^ d1 * 2 ^ s = 2 ^ (d2 - 1) * 2 ^ 54)
      by (rewrite <- !Z.pow_add_r by lia; f_equal; lia).
    apply Z.lt_le_trans with (2 ^ d1 * 2 ^ s).
    - apply Z.mul_lt_mono_pos_r; assumption.
    - rewrite E. apply Z.mul_le_mono_nonneg_r; [|exact Hpb_lo].
      apply Z.pow_nonneg; lia. }
  assert (Hq52 : 2 ^ 52 <= q).
  { apply Z.div_le_lower_bound; [lia|].
    assert (E : 2 ^ d2 * 2 ^ 52 = 2 ^ (d1 - 1) * 2 ^ s)
      by (rewrite <- !Z.pow_add_r by lia; f_equal; lia).
    apply Z.le_trans with (2 ^ d2 * 2 ^ 52).
    - apply Z.mul_le_mono_nonneg_r; [apply Z.pow_nonneg|]; lia.
    - rewrite E. apply Z.mul_le_mono_nonneg_r; [lia|exact Hpa_lo]. }
  destruct (binary_round_aux_normal false q e'
              (new_location (Zpos pb) ((Zpos pa * 2 ^ s) mod Zpos pb))
              (conj Hq52 Hq54) ltac:(lia)) as (m & e & E & Hdm & He & Hm).
  rewrite E. exists m, e. split; [reflexivity|]. split; [exact Hdm|].
  split; [lia|].
  assert (Hsplit : s = (- e) + (e - e')) by lia.
  assert (Hpe : 0 < 2 ^ (- e)) by (apply Z.pow_pos_nonneg; lia).
  assert (Hpj : 0 < 2 ^ (e - e')) by (apply Z.pow_pos_nonneg; lia).
  split.
  - apply Z.lt_le_trans with (2 ^ d2); [exact Hpb_hi|].
    apply Z.pow_le_mono_r; lia.
  - assert (Hquot : q / 2 ^ (e - e') = Zpos pa * 2 ^ (- e) / Zpos pb).
    { unfold q. rewrite Z.div_div by lia.
      rewrite Hsplit, Z.pow_add_r by lia.
      rewrite Z.mul_assoc. apply Z.div_mul_cancel_r; lia. }
    rewrite <- Hquot. exact Hm.
Qed.

(** What [int] makes of such a quotient is the integer quotient. *)
Lemma truncated_bracket (a b m T : Z) :
  0 <= a -> 0 < b < T ->
  a * T / b <= m <= a * T / b + 1 ->
  m / T = a / b.
Proof.
  intros Ha [Hb HT] [Hlo Hhi].
  pose proof (Z.div_mod a b ltac:(lia)) as Hab.
  pose proof (Z.mod_pos_bound a b ltac:(lia)) as Hr.
  set (k := a / b) in *. set (r := a mod b) in *.
  assert (Hlow : k * T <= a * T / b).
  { apply Z.div_le_lower_bound; [lia|]. rewrite Hab. nia. }
  assert (Hupp : a * T / b + 1 < (k + 1) * T).
  { assert (a * T / b < (k + 1) * T - 1); [|lia].
    apply Z.div_lt_upper_bound; [lia|]. rewrite Hab. nia. }
  symmetry. apply Z.div_unique with (m - k * T); nia.
Qed.

Lemma int_of_finite (m : positive) (e : Z) :
  e <= 0 -> int_of_float (S754_finite false m e) = Ok (Zpos m / 2 ^ (- e)).
Proof.
  intros He. cbn [int_of_float cond_Zopp].
  rewrite Z.shiftl_div_pow2 by assumption. reflexivity.
Qed.

Lemma int_truediv_truncated (a b : Z) :
  0 <= a < 2 ^ 50 -> 0 < b < 2 ^ 50 ->
  exists x, int_truediv a b = Ok x /\ int_of_float x = Ok (a / b).
Proof.
  intros [Ha0 Ha] Hb.
  destruct (Z.eq_dec a 0) as [->|Hne].
  - exists (S754_zero false). unfold int_truediv.
    destruct (Z.eqb_spec b 0); [lia|].
    destruct b as [|pb|pb]; try lia. split; reflexivity.
  - destruct (int_truediv_spec a b ltac:(lia) Hb)
      as (m & e & E & _ & He & HT & Hm).
    exists (S754_finite false m e). split; [exact E|].
    rewrite int_of_finite by assumption. f_equal.
    apply truncated_bracket; [lia|lia|exact Hm].
Qed.

(** Comparison of two positive normal floats with exponents below zero, as
    a comparison of integers. *)
Lemma SFltb_normal (m1 m2 : positive) (e1 e2 : Z) :
  Zpos (digits2_pos m1) = 53 -> Zpos (digits2_pos m2) = 53 ->
  e1 <= 0 -> e2 <= 0 ->
  SFltb (S754_finite false m1 e1) (S754_finite false m2 e2) = true
  <-> Zpos m1 * 2 ^ (- e2) < Zpos m2 * 2 ^ (- e1).
Proof.
  intros Hd1 Hd2 He1 He2.
  pose proof (digits2_pos_bounds m1) as [Hlo1 Hhi1].
  pose proof (digits2_pos_bounds m2) as [Hlo2 Hhi2].
  rewrite Hd1 in Hlo1, Hhi1. rewrite Hd2 in Hlo2, Hhi2.
  change (2 ^ (53 - 1)) with (2 ^ 52) in *.
  change (2 ^ 53) with (2 * 2 ^ 52) in *.
  assert (H52 : 0 < 2 ^ 52) by reflexivity.
  generalize dependent (2 ^ 52). intros B Hlo1 Hhi1 Hlo2 Hhi2 HB.
  unfold SFltb, SFcompare.
  destruct (Z.compare_spec e1 e2) as [<-|Hlt|Hgt].
  - assert (Hp : 0 < 2 ^ (- e1)) by (apply Z.pow_pos_nonneg; lia).
    rewrite <- Z.mul_lt_mono_pos_r by assumption.
    change (Pos.compare_cont Eq m1 m2) with (Pos.compare m1 m2).
    rewrite Pos2Z.inj_compare.
    destruct (Z.compare_spec (Zpos m1) (Zpos m2)); split; intros; try lia;
      discriminate.
  - split; [intros _|reflexivity].
    assert (E : 2 ^ (- e1) = 2 ^ (- e2) * 2 ^ (e2 - e1))
      by (rewrite <- Z.pow_add_r by lia; f_equal; lia).
    assert (Hp : 0 < 2 ^ (- e2)) by (apply Z.pow_pos_nonneg; lia).
    assert (Hj : 2 <= 2 ^ (e2 - e1))
      by (change 2 with (2 ^ 1) at 1; apply Z.pow_le_mono_r; lia).
    rewrite E. nia.
  - split; [discriminate|]. intros Habs. exfalso.
    assert (E : 2 ^ (- e2) = 2 ^ (- e1) * 2 ^ (e1 - e2))
      by (rewrite <- Z.pow_add_r by lia; f_equal; lia).
    assert (Hp : 0 < 2 ^ (- e1)) by (apply Z.pow_pos_nonneg; lia).
    assert (Hj : 2 <= 2 ^ (e1 - e2))
      by (change 2 with (2 ^ 1) at 1; apply Z.pow_le_mono_r; lia).
    rewrite E in Habs. nia.
Qed.

(** [duration / 60 > 60] holds for the seconds above 3600 and for no
    others. *)
Lemma minutes_over_60 (d : Z) (m : positive) (e : Z) :
  60 <= d ->
  int_truediv d 60 = Ok (S754_finite false m e) ->
  Zpos (digits2_pos m) = 53 -> e <= 0 -> 60 < 2 ^ (- e) ->
  d * 2 ^ (- e) / 60 <= Zpos m <= d * 2 ^ (- e) / 60 + 1 ->
  SFltb (float_lit 60) (S754_finite false m e) = (60 * 60 <? d).
Proof.
  intros Hd E Hdm He HT Hm.
  destruct (Z.eq_dec d 3600) as [->|Hne].
  - vm_compute in E. injection E as <- <-. reflexivity.
  - change (float_lit 60) with (S754_finite false 8444249301319680 (-47)).
    pose proof (SFltb_normal 8444249301319680 m (-47) e
                  ltac:(reflexivity) Hdm ltac:(lia) He) as Hcmp.
    change (Zpos 8444249301319680) with (60 * 2 ^ 47) in Hcmp.
    change (- -47) with 47 in Hcmp.
    assert (H47 : 0 < 2 ^ 47) by reflexivity.
    generalize dependent (2 ^ 47). intros P Hcmp HP.
    set (T := 2 ^ (- e)) in *.
    destruct (Z.ltb_spec (60 * 60) d) as [Hgt|Hle].
    + apply Hcmp.
      assert (60 * T + 1 <= d * T / 60)
        by (apply Z.div_le_lower_bound; nia).
      nia.
    + destruct (SFltb (S754_finite false 8444249301319680 (-47))
                  (S754_finite false m e)) eqn:Es; [|reflexivity].
      exfalso. apply proj1 in Hcmp. specialize (Hcmp eq_refl).
      assert (d * T / 60 < 60 * T - 1)
        by (apply Z.div_lt_upper_bound; nia).
      nia.
Qed.

Lemma fmt_float_truncated (x : spec_float) (n : Z) :
  int_of_float x = Ok n ->
  fmt_d_float x = Ok (fmt_d n) /\ fmt_02d_float x = Ok (fmt_02d n).
Proof.
  intros E. unfold fmt_d_float, fmt_02d_float. rewrite E. split; reflexivity.
Qed.

Lemma human_duration_exact (con : Connection) :
  duration con / 1000 < 2 ^ 50 ->
  human_duration con = Ok (duration_string (duration con)).
Proof.
  intros Hlt. unfold human_duration, duration_string. cbn zeta.
  set (d := duration con / 1000) in *.
  destruct (Z.ltb_spec d 60) as [|Hge]; [reflexivity|].
  assert (H60 : 0 < 60 < 2 ^ 50) by (split; reflexivity).
  assert (H3600 : 0 < 60 ^ 2 < 2 ^ 50) by (split; reflexivity).
  assert (Hmod : 0 <= d mod 60 ^ 2 < 2 ^ 50).
  { pose proof (Z.mod_pos_bound d (60 ^ 2) ltac:(reflexivity)).
    split; [lia|]. apply Z.lt_trans with (60 ^ 2); [lia|reflexivity]. }
  destruct (int_truediv_spec d 60 ltac:(lia) H60)
    as (m & e & E & Hdm & He & HT & Hm).
  destruct (int_truediv_truncated d (60 ^ 2) ltac:(lia) H3600)
    as (h & Eh & Hh).
  destruct (int_truediv_truncated (d mod 60 ^ 2) 60 Hmod H60)
    as (r & Er & Hr).
  destruct (fmt_float_truncated h _ Hh) as [Fh _].
  destruct (fmt_float_truncated r _ Hr) as [_ Fr].
  assert (Hmin : int_of_float (S754_finite false m e) = Ok (d / 60)).
  { rewrite int_of_finite by assumption. f_equal.
    apply truncated_bracket; [lia|lia|exact Hm]. }
  destruct (fmt_float_truncated _ _ Hmin) as [_ Fm].
  rewrite E. cbn [mbind result_bind].
  rewrite (minutes_over_60 d m e Hge E Hdm He HT Hm).
  destruct (60 * 60 <? d).
  - rewrite Eh, Er. cbn [mbind result_bind].
    rewrite Fh. cbn [mbind result_bind]. rewrite Fr. reflexivity.
  - rewrite Fm. reflexivity.
Qed.

(** ** The duration string and the printed line *)

(** X16. For a duration below [2^50] seconds the duration string is the
    one integer arithmetic gives: the true divisions by [60] and [60**2]
    and the truncation of [%d] lose nothing. Whole seconds are floored (a
    negative duration counts as seconds), the minutes form is used from 60
    seconds up to an hour sharp, and the hours form above that. *)
Theorem X16_human_duration_exact (con : Connection) :
  duration con / 1000 < 2 ^ 50 ->
  human_duration con = Ok (duration_string (duration con)).
Proof. exact (human_duration_exact con). Qed.

Section SummaryFacts.

Context (sys : host).


End SummaryFacts.

(** ** Instances of the further properties *)

Lemma X1_witness :
  Connection_init offline download twin = Connection_of offline download
  /\ Connection_init offline twin download = Connection_of offline twin.
Proof.
  apply (proj1 (proj2 (X1_first_flow_wins_ties offline download twin 1500 1500
                         ltac:(vm_compute; reflexivity)
                         ltac:(vm_compute; reflexivity)))).
  reflexivity.
Defined.

Lemma X2_witness :
  Connection_init offline download upload = Connection_init offline download tiny
  /\ Connection_init offline upload download = Connection_init offline tiny download.
Proof.
  destruct (X2_smaller_flow_is_ignored offline download upload tiny 1500 500 100
              ltac:(vm_compute; reflexivity) ltac:(vm_compute; reflexivity)
              ltac:(vm_compute; reflexivity)) as [H1 H2].
  split; [apply H1|apply H2]; lia.
Defined.

Lemma X3_witness :
  Connection_init offline ∅ download = Raise (KeyError "IN_BYTES").
Proof.
  apply (proj1 (X3_IN_BYTES_errors offline ∅ download)). reflexivity.
Defined.

Lemma X4_witness : exists con, Connection_of offline download = Ok con.
Proof.
  apply (proj2 (X4_Connection_of_succeeds offline download)).
  exists (IPv4Address 167772162, IPv4Address 167772161),
    (VInt 443), (VInt 50000), (VInt 1500), (VInt 1000), (VInt 4000), 1000, 4000.
  repeat split; vm_compute; reflexivity.
Defined.

Lemma X5_witness :
  duration wrapped_connection = (5 - 4294967290) mod 2 ^ 32
  /\ duration wrapped_connection < 2 ^ 32.
Proof.
  apply (proj1 (X5_duration_modulo offline wrapped upload wrapped upload
                  4294967290 5 wrapped_connection
                  ltac:(vm_compute; reflexivity) ltac:(vm_compute; reflexivity)
                  ltac:(vm_compute; reflexivity) ltac:(vm_compute; reflexivity)));
    lia.
Defined.

Lemma X6_witness :
  use_ipv4 dual_stack = true
  /\ getIPs offline dual_stack = getIPs offline download.
Proof.
  apply (X6_getIPs_reads_one_family offline download dual_stack);
    vm_compute; reflexivity.
Defined.

Lemma X7_witness :
  human_size bulk_connection = Ok (size_string (1024 ^ 2 + 1))
  /\ size_string (1024 ^ 2 + 1) = "1.00M".
Proof.
  split; [|vm_compute; reflexivity].
  apply (X7_human_size_units bulk_connection (1024 ^ 2 + 1)); reflexivity.
Defined.

Lemma X8_witness :
  human_size {| src := IPv4Address 167772161; dest := IPv4Address 167772162;
                src_port := VInt 443; dest_port := VInt 50000;
                size := VStr "1500"; duration := 3000 |} = Raise TypeError.
Proof.
  apply (proj1 (X8_human_size_errors _)). reflexivity.
Defined.

Lemma X9_witness :
  Connection_repr bulk_connection =
    Ok ("<Connection from " +:+ compressed (src bulk_connection) +:+ " to "
          +:+ compressed (dest bulk_connection) +:+ ", size "
          +:+ size_string (1024 ^ 2 + 1) +:+ ">")
  /\ "<Connection from " +:+ compressed (src bulk_connection) +:+ " to "
       +:+ compressed (dest bulk_connection) +:+ ", size "
       +:+ size_string (1024 ^ 2 + 1) +:+ ">"
     = "<Connection from 10.0.0.1 to 10.0.0.2, size 1.00M>".
Proof.
  split; [|vm_compute; reflexivity].
  apply (X9_repr bulk_connection (1024 ^ 2 + 1)); reflexivity.
Defined.

(** A machine whose service database cannot be read at all. *)
Lemma X10_witness :
  service {| ip_of_text := ip_of_text offline; getfqdn := getfqdn offline;
             getservbyport := fun _ => Raise TypeError;
             timestamp_of := timestamp_of offline |} kib_connection
    = Raise TypeError.
Proof.
  apply (proj2 (X10_service_propagates _ kib_connection TypeError)).
  split; [discriminate|]. left. reflexivity.
Defined.

Lemma X11_witness :
  "1500000000" ∈ sorted two_exports /\ "1500000300" ∈ sorted two_exports.
Proof.
  split; apply (proj2 (proj2 (X11_exports_in_key_order two_exports)));
    vm_compute; eauto.
Defined.

Lemma X12_witness :
  (length (snd (fst (export_body offline two_exports "1500000000" (None, []))))
   <= length (@nil string)
      + length (default [] (two_exports !! "1500000000")) / 2)%nat.
Proof.
  exact (X12_at_most_one_line_per_pair offline two_exports "1500000000" None []).
Defined.


Lemma X14_witness :
  Forall (stamped "1500000000")
    (snd (fst (export_body offline two_exports "1500000000" (None, [])))).
Proof.
  apply (X14_lines_carry_the_export_time offline two_exports
           "1500000000" "1500000000" None).
  reflexivity.
Defined.

Lemma X15_witness :
  for_each (flow_body (report offline "1500000000")) [∅; bulk; upload] (None, [])
    = for_each (flow_body (report offline "1500000000")) [bulk; upload] (None, []).
Proof.
  apply (proj1 (X15_record_without_fields offline "1500000000" bulk [upload]
                  None [] eq_refl)).
Defined.

Lemma X16_witness :
  human_duration hour_connection = Ok (duration_string (duration hour_connection))
  /\ duration_string (duration hour_connection) = "1:00.01 hours".
Proof.
  split; [|vm_compute; reflexivity].
  apply (X16_human_duration_exact hour_connection). reflexivity.
Defined.


(** The hours form starts above an hour: an hour sharp is sixty minutes. *)
Example human_duration_hour_sharp :
  duration_string 3600000 = "60:00 min"
  /\ duration_string 3601000 = "1:00.01 hours"
  /\ summary offline "1500000000" bulk_connection =
       Ok "1500000000: UNKNOWN | 1.00M    | 3 sec     | 10.0.0.1 (10.0.0.1) to 10.0.0.2 (10.0.0.2)".
Proof. repeat split; vm_compute; reflexivity. Qed.
